(** * Galactic agent: a shallow embedding of the Go sources

    The development follows the packages of the agent:

    - [Codec] and [util]: the SRv6 endpoint codec of
      [galactic-common/util] ([EncodeSRv6Endpoint],
      [DecodeSRv6Endpoint], [IsHost]);
    - [Netlink]: the kernel tables the agent programs through
      [vishvananda/netlink];
    - [neighborproxy], [routeingress], [routeegress], [srv6]: the kernel
      programmer;
    - [remote]: the MQTT client;
    - [local]: the gRPC service;
    - [agent]: the handlers and the orchestration of [main.go];
    - [Lab]: one instance of the imported packages and a lab host;
    - [Specs] and the [...Facts] modules: the properties and their
      proofs. *)

From Stdlib Require Import ZArith List String Ascii Bool Lia.
Import ListNotations.

Local Open Scope string_scope.
Local Open Scope Z_scope.

#[local] Set Warnings "-register-all".

(** ** Go errors *)

(** A Go [error] value.  [Wrapped] is [fmt.Errorf("msg: %w", err)],
    [Joined] is the value built by [errors.Join]; a nil error is [None] in
    [option error]. *)
Inductive error : Type :=
| Errno (code : Z)
| ErrText (msg : string)
| LinkNotFoundError (name : string)
| Wrapped (msg : string) (inner : error)
| Joined (errs : list error).

(** A Go result pair [(T, error)] in which exactly one side is meaningful. *)
Inductive result (A : Type) : Type :=
| OK (a : A)
| Err (e : error).
Arguments OK {A} a.
Arguments Err {A} e.

(** * The identifier codec *)

Module Codec.

(** Modelled from the spec: the identifiers of the codec of
    galactic-common are lower-case hex, and mixed case is rejected.
    Value of one digit. *)
Definition hexval (c : ascii) : option Z :=
  let n := Z.of_nat (nat_of_ascii c) in
  if (48 <=? n) && (n <=? 57) then Some (n - 48)
  else if (97 <=? n) && (n <=? 102) then Some (n - 87)
  else None.

(** The lower-case digit of a nibble. *)
Definition hexdigit (d : Z) : ascii :=
  if d <? 10 then ascii_of_nat (Z.to_nat (d + 48))
  else ascii_of_nat (Z.to_nat (d + 87)).

Fixpoint parse_hex_acc (s : string) (acc : Z) : option Z :=
  match s with
  | EmptyString => Some acc
  | String c rest =>
      match hexval c with
      | Some d => parse_hex_acc rest (16 * acc + d)
      | None => None
      end
  end.

(** Modelled from the spec: an identifier is malformed when it is empty,
    holds another character than a lower-case hex digit, or exceeds
    [width] nibbles. *)
Definition parse_hex (width : nat) (s : string) : option Z :=
  if (Nat.eqb (String.length s) 0) || (Nat.ltb width (String.length s))
  then None
  else parse_hex_acc s 0.

(** Modelled from the spec: the fixed-width hex form of an identifier,
    [width] nibbles, most significant first, zero padded. *)
Fixpoint format_hex (width : nat) (n : Z) : string :=
  match width with
  | O => EmptyString
  | S w => format_hex w (n / 16) ++ String (hexdigit (n mod 16)) EmptyString
  end.

(** A base prefix: a 128-bit address and the number of leading mask bits. *)
Record Prefix : Type := mkPrefix { prefix_addr : Z; prefix_len : Z }.

Inductive CodecError : Type := InvalidIdentifier | InvalidBasePrefix.

(** The network mask of a [/len] prefix on 128 bits. *)
Definition mask128 (len : Z) : Z := Z.shiftl (Z.ones len) (128 - len).

(** Modelled from the spec: [util.EncodeSRv6Endpoint] lives in
    galactic-common.  The endpoint is
    [basePrefix || zeros || vpc(48) || attach(16)]; the identifiers are
    lower-case hex of at most 12 and 4 nibbles; a prefix wider than /64 is
    refused. *)
Definition Encode (base : Prefix) (vpcText attachText : string)
  : CodecError + Z :=
  if 64 <? prefix_len base then inl InvalidBasePrefix
  else
    match parse_hex 12 vpcText, parse_hex 4 attachText with
    | Some vpc, Some attach =>
        inr (Z.lor (Z.land (prefix_addr base) (mask128 (prefix_len base)))
                   (Z.lor (Z.shiftl vpc 16) attach))
    | _, _ => inl InvalidIdentifier
    end.

(** Modelled from the spec: [util.DecodeSRv6Endpoint] lives in
    galactic-common.  It reads the lower 64 bits of the address whatever
    the base prefix: 48 bits of VPC, then 16 bits of attachment, as 12 and
    4 hex nibbles. *)
Definition Decode (ip : Z) : string * string :=
  (format_hex 12 (Z.land (Z.shiftr ip 16) (Z.ones 48)),
   format_hex 4 (Z.land ip (Z.ones 16))).

(** Validity of the inputs of [Encode]. *)
Definition is_lower_hex (c : ascii) : bool :=
  match hexval c with Some _ => true | None => false end.

Fixpoint all_lower_hex (s : string) : bool :=
  match s with
  | EmptyString => true
  | String c rest => is_lower_hex c && all_lower_hex rest
  end.

Definition valid_hex (width : nat) (s : string) : Prop :=
  String.length s = width /\ all_lower_hex s = true.

Definition valid_base (p : Prefix) : Prop :=
  0 <= prefix_addr p < 2 ^ 128 /\ 0 <= prefix_len p <= 64.

End Codec.

(** * The kernel tables behind [vishvananda/netlink]

    Links, routes and neighbor entries, and the answers of the kernel
    that depend on them: a missing link, a missing route ([ESRCH]), a
    missing or already present neighbor entry ([ENOENT], [EEXIST]). *)

Module Netlink.

(** [net.IPNet]: an address on 128 bits (IPv4 in its mapped 16-byte form,
    as [net.IP] holds it) and the result of [Mask.Size()]. *)
Record IPNet : Type := mkIPNet { IP : Z; ones : Z; bits : Z }.

Definition IPNet_eqb (a b : IPNet) : bool :=
  (IP a =? IP b) && (ones a =? ones b) && (bits a =? bits b).

(** [ip.To4() != nil]: the address is in [::ffff:0:0/96]. *)
Definition is_v4 (ip : Z) : bool := Z.shiftr ip 32 =? 65535.

(** [netlink.NewIPNet]: the host network of an address. *)
Definition NewIPNet (ip : Z) : IPNet :=
  if is_v4 ip then mkIPNet ip 32 32 else mkIPNet ip 128 128.

(** Constants of [netlink] and [netlink/nl]. *)
Definition NUD_PERMANENT : Z := 128.
Definition NTF_PROXY : Z := 8.
Definition SEG6_LOCAL_ACTION : nat := 1.
Definition SEG6_LOCAL_VRFTABLE : nat := 9.
Definition SEG6_LOCAL_MAX : nat := 10.
Definition SEG6_LOCAL_ACTION_END_DT46 : Z := 16.
Definition SEG6_IPTUN_MODE_ENCAP : Z := 1.
Definition RT_TABLE_MAIN : Z := 254.
Definition ENOENT : Z := 2.
Definition ESRCH : Z := 3.
Definition EEXIST : Z := 17.

(** A link; [VrfTable] is the routing table of a VRF device. *)
Record Link : Type := mkLink
  { Name : string; Index : Z; VrfTable : option Z }.

Record SEG6LocalEncap : Type := mkSEG6LocalEncap
  { LFlags : list bool; LAction : Z; LVrfTable : Z }.

Record SEG6Encap : Type := mkSEG6Encap
  { Mode : Z; Segments : list Z }.

Inductive Encap : Type :=
| EncapSEG6Local (e : SEG6LocalEncap)
| EncapSEG6 (e : SEG6Encap).

Record Route : Type := mkRoute
  { Dst : IPNet; Table : Z; LinkIndex : Z; REncap : option Encap }.

Record Neigh : Type := mkNeigh
  { NLinkIndex : Z; NIP : Z; State : Z; Flags : Z }.

Record Kernel : Type := mkKernel
  { links : list Link; routes : list Route; neighs : list Neigh }.

(** The zero value [&netlink.SEG6LocalEncap{}]. *)
Definition SEG6LocalEncap_zero : SEG6LocalEncap :=
  mkSEG6LocalEncap (repeat false SEG6_LOCAL_MAX) 0 0.

(** [flags[i] = true] on a Go array: an index out of range does not
    compile in Go and leaves the list unchanged here. *)
Fixpoint set_flag (i : nat) (fl : list bool) : list bool :=
  match fl, i with
  | [], _ => []
  | _ :: rest, O => true :: rest
  | b :: rest, S j => b :: set_flag j rest
  end.

(** [netlink.LinkByName]. *)
Definition LinkByName (k : Kernel) (name : string) : result Link :=
  match find (fun l => String.eqb (Name l) name) (links k) with
  | Some l => OK l
  | None => Err (LinkNotFoundError name)
  end.

(** A route with [Table] unset goes to the main table. *)
Definition table_of (r : Route) : Z :=
  if 0 <? Table r then Table r else RT_TABLE_MAIN.

(** Two routes name the same kernel entry: same table, same
    destination. *)
Definition same_route (a b : Route) : bool :=
  (table_of a =? table_of b) && IPNet_eqb (Dst a) (Dst b).

(** The kernel holds an entry for the route [r] names. *)
Definition has_route (k : Kernel) (r : Route) : bool :=
  existsb (same_route r) (routes k).

(** [netlink.RouteReplace] ([NLM_F_CREATE|NLM_F_REPLACE]): the entry is
    created, or overwritten when it exists. *)
Definition RouteReplace (k : Kernel) (r : Route) : option error * Kernel :=
  (None,
   mkKernel (links k)
            (r :: filter (fun x => negb (same_route r x)) (routes k))
            (neighs k)).

(** [netlink.RouteDel]: the kernel answers [ESRCH] when no such route
    exists. *)
Definition RouteDel (k : Kernel) (r : Route) : option error * Kernel :=
  if has_route k r
  then (None,
        mkKernel (links k)
                 (filter (fun x => negb (same_route r x)) (routes k))
                 (neighs k))
  else (Some (Errno ESRCH), k).

Definition same_neigh (a b : Neigh) : bool :=
  (NLinkIndex a =? NLinkIndex b) && (NIP a =? NIP b)
  && (Z.land (Flags a) NTF_PROXY =? Z.land (Flags b) NTF_PROXY).

(** The kernel holds an entry for the neighbor [n] names. *)
Definition has_neigh (k : Kernel) (n : Neigh) : bool :=
  existsb (same_neigh n) (neighs k).

(** [netlink.NeighAdd] ([NLM_F_CREATE|NLM_F_EXCL]): a proxy entry is
    looked up or created by the kernel; an existing ordinary entry is
    refused with [EEXIST]. *)
Definition NeighAdd (k : Kernel) (n : Neigh) : option error * Kernel :=
  if (Z.land (Flags n) NTF_PROXY =? 0) && has_neigh k n
  then (Some (Errno EEXIST), k)
  else (None,
        mkKernel (links k) (routes k)
                 (n :: filter (fun x => negb (same_neigh n x)) (neighs k))).

(** [netlink.NeighDel]: the kernel answers [ENOENT] when no such entry
    exists. *)
Definition NeighDel (k : Kernel) (n : Neigh) : option error * Kernel :=
  if has_neigh k n
  then (None,
        mkKernel (links k) (routes k)
                 (filter (fun x => negb (same_neigh n x)) (neighs k)))
  else (Some (Errno ENOENT), k).

End Netlink.

(** * The world the agent acts on *)

(** What the agent does to its surroundings, in the order it does it. *)
Inductive Event : Type :=
| EvRouteReplace (r : Netlink.Route)
| EvRouteDel (r : Netlink.Route)
| EvNeighAdd (n : Netlink.Neigh)
| EvNeighDel (n : Netlink.Neigh)
| EvConnect
| EvSubscribe (topic : string) (qos : Z)
| EvPublish (topic : string) (qos : Z) (retained : bool) (payload : string)
| EvDisconnect (quiesce : Z).

(** An argument of a [log.Printf] call. *)
Inductive LogArg : Type :=
| LStr (s : string)
| LStrs (l : list string)
| LInt (z : Z)
| LErr (e : option error).

(** * The paho client ([eclipse/paho.mqtt.golang]) *)

Module mqtt.

(** The client options that the agent sets. *)
Record ClientOptions : Type := mkClientOptions
  { Servers : list string;
    OptClientID : string;
    OptUsername : string;
    OptPassword : string;
    CleanSession : bool }.

(** [mqtt.NewClientOptions()]: no server, no identity, clean session. *)
Definition NewClientOptions : ClientOptions :=
  mkClientOptions [] "" "" "" true.

Definition AddBroker (o : ClientOptions) (url : string) : ClientOptions :=
  mkClientOptions (Servers o ++ [url]) (OptClientID o) (OptUsername o)
                  (OptPassword o) (CleanSession o).
Definition SetClientID (o : ClientOptions) (id : string) : ClientOptions :=
  mkClientOptions (Servers o) id (OptUsername o) (OptPassword o)
                  (CleanSession o).
Definition SetUsername (o : ClientOptions) (u : string) : ClientOptions :=
  mkClientOptions (Servers o) (OptClientID o) u (OptPassword o)
                  (CleanSession o).
Definition SetPassword (o : ClientOptions) (p : string) : ClientOptions :=
  mkClientOptions (Servers o) (OptClientID o) (OptUsername o) p
                  (CleanSession o).
Definition SetCleanSession (o : ClientOptions) (b : bool) : ClientOptions :=
  mkClientOptions (Servers o) (OptClientID o) (OptUsername o)
                  (OptPassword o) b.

(** What the broker made of a request: [WaitTimeout] tells whether the
    token completed in time, [TokError] is [token.Error()]. *)
Record Token : Type := mkToken
  { WaitTimeout : bool; TokError : option error }.

(** A client: its options, whether it is connected, the topics the
    broker granted. *)
Record Client : Type := mkClient
  { connected : bool; subscribed : list string; options : ClientOptions }.

End mqtt.

(** [err == nil]. *)
Definition is_nil (e : option error) : bool :=
  match e with None => true | Some _ => false end.

(** The kernel, the package-level [r.client] of [main.go] (nil until
    [Remote.Run] stores a client), the actions so far and the log. *)
Record World : Type := mkWorld
  { kernel : Netlink.Kernel;
    r_client : option mqtt.Client;
    trace : list Event;
    logs : list (string * list LogArg) }.

(** A Go call either returns or panics. *)
Inductive Outcome (A : Type) : Type :=
| Done (a : A) (w : World)
| Panic (msg : string) (w : World).
Arguments Done {A} a w.
Arguments Panic {A} msg w.

Definition M (A : Type) : Type := World -> Outcome A.

Definition ret {A : Type} (a : A) : M A := fun w => Done a w.

Definition bind {A B : Type} (m : M A) (f : A -> M B) : M B :=
  fun w =>
    match m w with
    | Done a w' => f a w'
    | Panic msg w' => Panic msg w'
    end.

Notation "x <- m ;; k" := (bind m (fun x => k))
  (at level 61, m at next level, right associativity).
Notation "m ;;; k" := (bind m (fun _ => k))
  (at level 61, right associativity).

Definition world_of {A : Type} (o : Outcome A) : World :=
  match o with Done _ w => w | Panic _ w => w end.

(** What a call returned, if it returned. *)
Definition returned {A : Type} (o : Outcome A) : option A :=
  match o with Done a _ => Some a | Panic _ _ => None end.

(** A task that either returns by itself or blocks on [<-ctx.Done()] and
    then runs [k]. *)
Inductive Blocking (A : Type) : Type :=
| Returned (a : A)
| AwaitDone (k : M A).
Arguments Returned {A} a.
Arguments AwaitDone {A} k.

Definition Printf (format : string) (args : list LogArg) : M unit :=
  fun w => Done tt (mkWorld (kernel w) (r_client w) (trace w)
                            (logs w ++ [(format, args)])).

Definition emit (e : Event) : M unit :=
  fun w => Done tt (mkWorld (kernel w) (r_client w) (trace w ++ [e])
                            (logs w)).

(** A netlink request: the request is issued, the kernel answers. *)
Definition request {A : Type} (e : Event)
  (op : Netlink.Kernel -> A * Netlink.Kernel) : M A :=
  fun w =>
    let (a, k) := op (kernel w) in
    Done a (mkWorld k (r_client w) (trace w ++ [e]) (logs w)).

Definition LinkByName (name : string) : M (result Netlink.Link) :=
  fun w => Done (Netlink.LinkByName (kernel w) name) w.

Definition RouteReplace (r : Netlink.Route) : M (option error) :=
  request (EvRouteReplace r) (fun k => Netlink.RouteReplace k r).

Definition RouteDel (r : Netlink.Route) : M (option error) :=
  request (EvRouteDel r) (fun k => Netlink.RouteDel k r).

Definition NeighAdd (n : Netlink.Neigh) : M (option error) :=
  request (EvNeighAdd n) (fun k => Netlink.NeighAdd k n).

Definition NeighDel (n : Netlink.Neigh) : M (option error) :=
  request (EvNeighDel n) (fun k => Netlink.NeighDel k n).

(** * The bus envelope ([remote.proto]) *)

Definition Route_ADD : Z := 0.
Definition Route_DELETE : Z := 1.

(** The discriminated union carried on the bus; [Envelope_unset] is an
    envelope whose [Kind] is nil. *)
Inductive Envelope : Type :=
| Envelope_Register (Network Srv6Endpoint : string)
| Envelope_Deregister (Network Srv6Endpoint : string)
| Envelope_Route (Network Srv6Endpoint : string)
                 (Srv6Segments : list string) (Status : Z)
| Envelope_unset.

(** * Imported packages

    Functions of galactic-common, netlink, net and protobuf whose text
    formats are fixed outside this repository.  The agent is verified for
    every implementation of them. *)
Class Imports : Type := mkImports
  { ParseCIDR : string -> result Codec.Prefix;
    FormatIP : Z -> string;
    ParseIP : string -> result Z;
    ParseSegments : list string -> result (list Z);
    HexToBase62 : string -> result string;
    GenerateInterfaceNameHost : string -> string -> string;
    GenerateInterfaceNameVRF : string -> string -> string;
    ParseIPNet : string -> result Netlink.IPNet;
    Marshal : Envelope -> result string;
    Unmarshal : string -> result Envelope }.

(** [errors.Join] on a slice of non-nil errors. *)
Definition errors_Join (errs : list error) : option error :=
  match errs with
  | [] => None
  | _ :: _ => Some (Joined errs)
  end.

(** [errors.Is] for the error values above: [target] is [e] or is reached
    from [e] by unwrapping. *)
Inductive Contains (target : error) : error -> Prop :=
| Contains_here : Contains target target
| Contains_wrapped : forall msg e,
    Contains target e -> Contains target (Wrapped msg e)
| Contains_joined : forall e errs,
    In e errs -> Contains target e -> Contains target (Joined errs).

Module util.
Section WithImports.
Context {imports : Imports}.

Definition codec_error (e : Codec.CodecError) : error :=
  match e with
  | Codec.InvalidIdentifier => ErrText "invalid identifier"
  | Codec.InvalidBasePrefix => ErrText "invalid base prefix"
  end.

(** Modelled from the spec: [util.EncodeSRv6Endpoint] on the text forms
    the agent passes around: the base prefix in CIDR text, the endpoint
    as IPv6 text. *)
Definition EncodeSRv6Endpoint (srv6_net vpc vpcAttachment : string)
  : result string :=
  match ParseCIDR srv6_net with
  | Err e => Err e
  | OK base =>
      match Codec.Encode base vpc vpcAttachment with
      | inl ce => Err (codec_error ce)
      | inr ip => OK (FormatIP ip)
      end
  end.

(** Modelled from the spec: [util.DecodeSRv6Endpoint], total on IPv6
    addresses. *)
Definition DecodeSRv6Endpoint (ip : Z) : result (string * string) :=
  OK (Codec.Decode ip).

(** Modelled from the spec: [util.IsHost]; a host prefix has no host
    bits. *)
Definition IsHost (p : Netlink.IPNet) : bool :=
  Netlink.bits p - Netlink.ones p =? 0.

End WithImports.
End util.

Module vrf.
Section WithImports.
Context {imports : Imports}.

(** Modelled from the spec: [vrf.GetVRFIdForVPC] of galactic-common looks
    up the VRF device named after the pair and reads its table. *)
Definition GetVRFIdForVPC (vpc vpcAttachment : string) : M (result Z) :=
  let dev := GenerateInterfaceNameVRF vpc vpcAttachment in
  link <- LinkByName dev ;;
  match link with
  | Err e => ret (Err e)
  | OK link =>
      match Netlink.VrfTable link with
      | Some t => ret (OK t)
      | None => ret (Err (ErrText "link is not a VRF"))
      end
  end.

End WithImports.
End vrf.

Module neighborproxy.
Section WithImports.
Context {imports : Imports}.

Definition Add (ipnet : Netlink.IPNet) (vpc vpcAttachment : string)
  : M (option error) :=
  let dev := GenerateInterfaceNameHost vpc vpcAttachment in
  link <- LinkByName dev ;;
  match link with
  | Err e => ret (Some e)
  | OK link =>
      let neigh :=
        Netlink.mkNeigh (Netlink.Index link) (Netlink.IP ipnet)
                        Netlink.NUD_PERMANENT Netlink.NTF_PROXY in
      NeighAdd neigh
  end.

Definition Delete (ipnet : Netlink.IPNet) (vpc vpcAttachment : string)
  : M (option error) :=
  let dev := GenerateInterfaceNameHost vpc vpcAttachment in
  link <- LinkByName dev ;;
  match link with
  | Err e => ret (Some e)
  | OK link =>
      let neigh :=
        Netlink.mkNeigh (Netlink.Index link) (Netlink.IP ipnet)
                        Netlink.NUD_PERMANENT Netlink.NTF_PROXY in
      NeighDel neigh
  end.

End WithImports.
End neighborproxy.

Module routeingress.
Section WithImports.
Context {imports : Imports}.

Definition Add (ip : Netlink.IPNet) (vpc vpcAttachment : string)
  : M (option error) :=
  let dev := GenerateInterfaceNameHost vpc vpcAttachment in
  link <- LinkByName dev ;;
  match link with
  | Err e => ret (Some e)
  | OK link =>
      vrfId <- vrf.GetVRFIdForVPC vpc vpcAttachment ;;
      match vrfId with
      | Err e => ret (Some e)
      | OK vrfId =>
          let flags := repeat false Netlink.SEG6_LOCAL_MAX in
          let flags := Netlink.set_flag Netlink.SEG6_LOCAL_ACTION flags in
          let flags := Netlink.set_flag Netlink.SEG6_LOCAL_VRFTABLE flags in
          let encap :=
            Netlink.mkSEG6LocalEncap
              flags Netlink.SEG6_LOCAL_ACTION_END_DT46 vrfId in
          let route :=
            Netlink.mkRoute ip 0 (Netlink.Index link)
                            (Some (Netlink.EncapSEG6Local encap)) in
          RouteReplace route
      end
  end.

Definition Delete (ip : Netlink.IPNet) (vpc vpcAttachment : string)
  : M (option error) :=
  let dev := GenerateInterfaceNameHost vpc vpcAttachment in
  link <- LinkByName dev ;;
  match link with
  | Err e => ret (Some e)
  | OK link =>
      let route :=
        Netlink.mkRoute
          ip 0 (Netlink.Index link)
          (Some (Netlink.EncapSEG6Local Netlink.SEG6LocalEncap_zero)) in
      RouteDel route
  end.

End WithImports.
End routeingress.

Module routeegress.
Section WithImports.
Context {imports : Imports}.

Definition LoopbackDevice : string := "lo-galactic".

Definition Add (vpc vpcAttachment : string) (prefix : Netlink.IPNet)
  (segments : list Z) : M (option error) :=
  link <- LinkByName LoopbackDevice ;;
  match link with
  | Err e => ret (Some e)
  | OK link =>
      vrfId <- vrf.GetVRFIdForVPC vpc vpcAttachment ;;
      match vrfId with
      | Err e => ret (Some e)
      | OK vrfId =>
          let encap :=
            Netlink.mkSEG6Encap Netlink.SEG6_IPTUN_MODE_ENCAP segments in
          let route :=
            Netlink.mkRoute prefix vrfId (Netlink.Index link)
                            (Some (Netlink.EncapSEG6 encap)) in
          RouteReplace route
      end
  end.

Definition Delete (vpc vpcAttachment : string) (prefix : Netlink.IPNet)
  (segments : list Z) : M (option error) :=
  link <- LinkByName LoopbackDevice ;;
  match link with
  | Err e => ret (Some e)
  | OK link =>
      vrfId <- vrf.GetVRFIdForVPC vpc vpcAttachment ;;
      match vrfId with
      | Err e => ret (Some e)
      | OK vrfId =>
          let route :=
            Netlink.mkRoute prefix vrfId (Netlink.Index link) None in
          RouteDel route
      end
  end.

End WithImports.
End routeegress.

(** The Go idiom [x, err := f(); if err != nil { return
    fmt.Errorf("msg: %w", err) }]. *)
Definition try_wrap {A : Type} (r : result A) (msg : string)
  (k : A -> M (option error)) : M (option error) :=
  match r with
  | Err e => ret (Some (Wrapped msg e))
  | OK a => k a
  end.

Notation "'try' x <- r 'orfail' msg ;; k" := (try_wrap r msg (fun x => k))
  (at level 61, x name, r at next level, msg at next level,
   right associativity).

(** [if err != nil { errs = append(errs, fmt.Errorf("msg: %w", err)) }]. *)
Definition collect (errs : list error) (msg : string) (err : option error)
  : list error :=
  match err with
  | Some e => errs ++ [Wrapped msg e]
  | None => errs
  end.

Module srv6.
Section WithImports.
Context {imports : Imports}.

Definition RouteIngressAdd (ipStr : string) : M (option error) :=
  try ip <- ParseIP ipStr orfail "invalid ip" ;;
  try ids <- util.DecodeSRv6Endpoint ip
    orfail "could not extract SRv6 endpoint" ;;
  try vpc <- HexToBase62 (fst ids) orfail "invalid vpc" ;;
  try vpcAttachment <- HexToBase62 (snd ids)
    orfail "invalid vpcattachment" ;;
  err <- routeingress.Add (Netlink.NewIPNet ip) vpc vpcAttachment ;;
  match err with
  | Some e => ret (Some (Wrapped "routeingress add failed" e))
  | None => ret None
  end.

Definition RouteIngressDel (ipStr : string) : M (option error) :=
  try ip <- ParseIP ipStr orfail "invalid ip" ;;
  try ids <- util.DecodeSRv6Endpoint ip
    orfail "could not extract SRv6 endpoint" ;;
  try vpc <- HexToBase62 (fst ids) orfail "invalid vpc" ;;
  try vpcAttachment <- HexToBase62 (snd ids)
    orfail "invalid vpcattachment" ;;
  err <- routeingress.Delete (Netlink.NewIPNet ip) vpc vpcAttachment ;;
  match err with
  | Some e => ret (Some (Wrapped "routeingress delete failed" e))
  | None => ret None
  end.

Definition RouteEgressAdd (prefixStr srcStr : string)
  (segmentsStr : list string) : M (option error) :=
  try prefix <- ParseIPNet prefixStr orfail "invalid prefix" ;;
  try src <- ParseIP srcStr orfail "invalid src" ;;
  try segments <- ParseSegments segmentsStr orfail "invalid segments" ;;
  try ids <- util.DecodeSRv6Endpoint src
    orfail "could not extract SRv6 endpoint" ;;
  try vpc <- HexToBase62 (fst ids) orfail "invalid vpc" ;;
  try vpcAttachment <- HexToBase62 (snd ids)
    orfail "invalid vpcattachment" ;;
  errs <- (if util.IsHost prefix
           then err <- neighborproxy.Add prefix vpc vpcAttachment ;;
                ret (collect [] "neighborproxy add failed" err)
           else ret []) ;;
  err <- routeegress.Add vpc vpcAttachment prefix segments ;;
  let errs := collect errs "routeegress add failed" err in
  if (0 <? List.length errs)%nat then ret (errors_Join errs) else ret None.

Definition RouteEgressDel (prefixStr srcStr : string)
  (segmentsStr : list string) : M (option error) :=
  try prefix <- ParseIPNet prefixStr orfail "invalid prefix" ;;
  try src <- ParseIP srcStr orfail "invalid src" ;;
  try segments <- ParseSegments segmentsStr orfail "invalid segments" ;;
  try ids <- util.DecodeSRv6Endpoint src
    orfail "could not extract SRv6 endpoint" ;;
  try vpc <- HexToBase62 (fst ids) orfail "invalid vpc" ;;
  try vpcAttachment <- HexToBase62 (snd ids)
    orfail "invalid vpcattachment" ;;
  errs <- (if util.IsHost prefix
           then err <- neighborproxy.Delete prefix vpc vpcAttachment ;;
                ret (collect [] "neighborproxy delete failed" err)
           else ret []) ;;
  err <- routeegress.Delete vpc vpcAttachment prefix segments ;;
  let errs := collect errs "routeegress delete failed" err in
  if (0 <? List.length errs)%nat then ret (errors_Join errs) else ret None.

End WithImports.
End srv6.

(** * The remote client ([api/remote/remote.go]) *)

Module remote.
Import mqtt.

(** The configuration fields of [Remote]; its [client] field is the
    [r_client] of the world. *)
Record Remote : Type := mkRemote
  { URL : string;
    ClientID : string;
    Username : string;
    Password : string;
    QoS : Z;
    TopicRX : string;
    TopicTX : string;
    ReceiveHandler : string -> M (option error) }.

(** The options built at the start of [Run]. *)
Definition Run_options (r : Remote) : ClientOptions :=
  let opts := AddBroker NewClientOptions (URL r) in
  let opts := if negb (String.eqb (ClientID r) "")
              then SetClientID opts (ClientID r) else opts in
  let opts := if negb (String.eqb (Username r) "")
              then SetUsername opts (Username r) else opts in
  let opts := if negb (String.eqb (Password r) "")
              then SetPassword opts (Password r) else opts in
  SetCleanSession opts (String.eqb (ClientID r) "" || (QoS r =? 0)).

(** [c.Subscribe]: the request goes out; the subscription stands when the
    broker granted it. *)
Definition Subscribe (topic : string) (qos : Z) (tok : Token) : M Token :=
  fun w =>
    let c := match r_client w with
             | Some c =>
                 if WaitTimeout tok && is_nil (TokError tok)
                 then Some (mkClient (connected c) (subscribed c ++ [topic])
                                     (options c))
                 else Some c
             | None => None
             end in
    Done tok (mkWorld (kernel w) c (trace w ++ [EvSubscribe topic qos])
                      (logs w)).

(** The [opts.OnConnect] callback; [tok] is the broker's answer to the
    subscribe request. *)
Definition OnConnect (r : Remote) (tok : Token) : M unit :=
  Printf "MQTT connected" [] ;;;
  token <- Subscribe (TopicRX r) (QoS r) tok ;;
  if negb (WaitTimeout token) || negb (is_nil (TokError token))
  then Printf "MQTT subscribe error: %v" [LErr (TokError token)]
  else Printf "MQTT subscribed: %s" [LStr (TopicRX r)].

(** The message callback given to [Subscribe]. *)
Definition onMessage (r : Remote) (payload : string) : M unit :=
  err <- ReceiveHandler r payload ;;
  match err with
  | Some e => Printf "MQTT ReceiveHandler failed: %v" [LErr (Some e)]
  | None => ret tt
  end.

(** [r.client = mqtt.NewClient(opts)]. *)
Definition store_client (opts : ClientOptions) : M unit :=
  fun w => Done tt (mkWorld (kernel w) (Some (mkClient false [] opts))
                            (trace w) (logs w)).

(** [r.client.Connect()] with the broker's answer [tok]. *)
Definition Connect (tok : Token) : M Token :=
  fun w =>
    match r_client w with
    | None => Panic "nil pointer dereference" w
    | Some c =>
        Done tok (mkWorld (kernel w)
                          (Some (mkClient (is_nil (TokError tok))
                                          (subscribed c) (options c)))
                          (trace w ++ [EvConnect]) (logs w))
    end.

Fixpoint each_connect (r : Remote) (subs : list Token) : M unit :=
  match subs with
  | [] => ret tt
  | tok :: rest => OnConnect r tok ;;; each_connect r rest
  end.

(** [if r.client.IsConnected() { r.client.Disconnect(250) }]. *)
Definition disconnect_if_connected : M unit :=
  fun w =>
    match r_client w with
    | None => Panic "nil pointer dereference" w
    | Some c =>
        if connected c
        then Done tt (mkWorld (kernel w)
                              (Some (mkClient false (subscribed c)
                                              (options c)))
                              (trace w ++ [EvDisconnect 250]) (logs w))
        else Done tt w
    end.

(** [Run], cut at [<-ctx.Done()]: [conn] is the broker's answer to the
    connect request, [subs] its answers to the subscribe request of each
    connection made before the context is done. *)
Definition Run (r : Remote) (conn : Token) (subs : list Token)
  : M (Blocking (option error)) :=
  Printf "MQTT connecting" [] ;;;
  let opts := Run_options r in
  store_client opts ;;;
  tok <- Connect conn ;;
  if negb (is_nil (TokError tok)) then ret (Returned (TokError tok))
  else
    each_connect r subs ;;;
    ret (AwaitDone (disconnect_if_connected ;;;
                    Printf "MQTT disconnected" [] ;;;
                    ret None)).

(** [Send]: [r.client.Publish(...)] on whatever [r.client] holds; a method
    call on a nil interface value panics. *)
Definition Send (r : Remote) (payload : string) : M unit :=
  fun w =>
    match r_client w with
    | None => Panic "nil pointer dereference" w
    | Some _ =>
        Done tt (mkWorld (kernel w) (r_client w)
                         (trace w ++ [EvPublish (TopicTX r) (QoS r) false
                                                payload])
                         (logs w))
    end.

End remote.

(** * The local service ([api/local/local.go]) *)

Module local.

Record Local : Type := mkLocal
  { SocketPath : string;
    RegisterHandler : string -> string -> list string -> M (option error);
    DeregisterHandler : string -> string -> list string -> M (option error) }.

Record RegisterRequest : Type := mkRegisterRequest
  { Vpc : string; Vpcattachment : string; Networks : list string }.

Record DeregisterRequest : Type := mkDeregisterRequest
  { DVpc : string; DVpcattachment : string; DNetworks : list string }.

Record RegisterReply : Type := mkRegisterReply { Confirmed : bool }.

Record DeregisterReply : Type := mkDeregisterReply { DConfirmed : bool }.

(** The pair of a reply pointer and an error handed back to gRPC: a nil
    reply is [None]; a non-nil error travels as the status of the call. *)
Definition Register (l : Local) (req : RegisterRequest)
  : M (option RegisterReply * option error) :=
  err <- RegisterHandler l (Vpc req) (Vpcattachment req) (Networks req) ;;
  match err with
  | Some e => ret (None, Some e)
  | None => ret (Some (mkRegisterReply true), None)
  end.

Definition Deregister (l : Local) (req : DeregisterRequest)
  : M (option DeregisterReply * option error) :=
  err <- DeregisterHandler l (DVpc req) (DVpcattachment req)
                           (DNetworks req) ;;
  match err with
  | Some e => ret (None, Some e)
  | None => ret (Some (mkDeregisterReply true), None)
  end.

(** What the operating system and gRPC answer to [Serve]. *)
Record ServeEnv : Type := mkServeEnv
  { RemoveErr : option error;
    RemoveIsNotExist : bool;
    ListenErr : option error;
    GrpcServeErr : option error }.

(** [Serve], cut at [<-ctx.Done()]. *)
Definition Serve (l : Local) (env : ServeEnv)
  : M (Blocking (option error)) :=
  if negb (is_nil (RemoveErr env)) && negb (RemoveIsNotExist env)
  then ret (Returned (RemoveErr env))
  else if negb (is_nil (ListenErr env))
  then ret (Returned (ListenErr env))
  else
    Printf "gRPC listening: unix://%s" [LStr (SocketPath l)] ;;;
    ret (AwaitDone (Printf "gRPC stopped" [] ;;; ret (GrpcServeErr env))).

End local.

(** * [errgroup.WithContext] *)

Module errgroup.

(** The derived context ([done]: it is cancelled) and the first error. *)
Record Group : Type := mkGroup { done : bool; err : option error }.

Definition WithContext (parent_done : bool) : Group :=
  mkGroup parent_done None.

(** What [g.Go] does when its function returns [res]: the first non-nil
    error is kept and cancels the context. *)
Definition finished (g : Group) (res : option error) : Group :=
  match res with
  | None => g
  | Some e =>
      match err g with
      | None => mkGroup true (Some e)
      | Some _ => g
      end
  end.

End errgroup.

(** * The agent ([main.go]) *)

Module agent.
Section WithImports.
Context {imports : Imports}.

(** The keys [viper] serves. *)
Record Config : Type := mkConfig
  { srv6_net : string;
    socket_path : string;
    mqtt_url : string;
    mqtt_clientid : string;
    mqtt_username : string;
    mqtt_password : string;
    mqtt_qos : Z;
    mqtt_topic_receive : string;
    mqtt_topic_send : string }.

(** The defaults of [initConfig]. *)
Definition defaults : Config :=
  mkConfig "fc00::/56" "/var/run/galactic/agent.sock" "tcp://mqtt:1883"
           "" "" "" 1 "galactic/default/receive" "galactic/default/send".

Definition ReceiveHandler (payload : string) : M (option error) :=
  match Unmarshal payload with
  | Err e => ret (Some e)
  | OK envelope =>
      match envelope with
      | Envelope_Route network endpoint segments status =>
          Printf "ROUTE: status='%s', network='%s', srv6_endpoint='%s', srv6_segments='%s'"
                 [LInt status; LStr network; LStr endpoint;
                  LStrs segments] ;;;
          if status =? Route_ADD then
            err <- srv6.RouteEgressAdd network endpoint segments ;;
            match err with
            | Some e => ret (Some e)
            | None => ret None
            end
          else if status =? Route_DELETE then
            err <- srv6.RouteEgressDel network endpoint segments ;;
            match err with
            | Some e => ret (Some e)
            | None => ret None
            end
          else ret None
      | _ => ret None
      end
  end.

(** [r = remote.Remote{...}]; [byte(...)] keeps the low 8 bits. *)
Definition r (cfg : Config) : remote.Remote :=
  remote.mkRemote (mqtt_url cfg) (mqtt_clientid cfg) (mqtt_username cfg)
                  (mqtt_password cfg) (mqtt_qos cfg mod 256)
                  (mqtt_topic_receive cfg) (mqtt_topic_send cfg)
                  ReceiveHandler.

(** The [for _, n := range networks] loop of [RegisterHandler]. *)
Fixpoint register_each (cfg : Config) (srv6_endpoint : string)
  (networks : list string) : M (option error) :=
  match networks with
  | [] => ret None
  | n :: rest =>
      Printf "REGISTER: network='%s', srv6_endpoint='%s'"
             [LStr n; LStr srv6_endpoint] ;;;
      match Marshal (Envelope_Register n srv6_endpoint) with
      | Err e => ret (Some e)
      | OK payload =>
          remote.Send (r cfg) payload ;;;
          register_each cfg srv6_endpoint rest
      end
  end.

Definition RegisterHandler (cfg : Config) (vpc vpcAttachment : string)
  (networks : list string) : M (option error) :=
  match util.EncodeSRv6Endpoint (srv6_net cfg) vpc vpcAttachment with
  | Err e => ret (Some e)
  | OK srv6_endpoint =>
      err <- srv6.RouteIngressAdd srv6_endpoint ;;
      match err with
      | Some e => ret (Some e)
      | None => register_each cfg srv6_endpoint networks
      end
  end.

(** The loop of [DeregisterHandler]. *)
Fixpoint deregister_each (cfg : Config) (srv6_endpoint : string)
  (networks : list string) : M (option error) :=
  match networks with
  | [] => ret None
  | n :: rest =>
      Printf "DEREGISTER: network='%s', srv6_endpoint='%s'"
             [LStr n; LStr srv6_endpoint] ;;;
      match Marshal (Envelope_Deregister n srv6_endpoint) with
      | Err e => ret (Some e)
      | OK payload =>
          remote.Send (r cfg) payload ;;;
          deregister_each cfg srv6_endpoint rest
      end
  end.

Definition DeregisterHandler (cfg : Config) (vpc vpcAttachment : string)
  (networks : list string) : M (option error) :=
  match util.EncodeSRv6Endpoint (srv6_net cfg) vpc vpcAttachment with
  | Err e => ret (Some e)
  | OK srv6_endpoint =>
      err <- srv6.RouteIngressDel srv6_endpoint ;;
      match err with
      | Some e => ret (Some e)
      | None => deregister_each cfg srv6_endpoint networks
      end
  end.

(** [l = local.Local{...}]. *)
Definition l (cfg : Config) : local.Local :=
  local.mkLocal (socket_path cfg) (RegisterHandler cfg)
                (DeregisterHandler cfg).

(** How the [Run] closure of the command ends: [log.Fatalf], a normal
    return, or [g.Wait()] never returning. *)
Inductive RunEnd : Type := Fatal | Returns | Waits.

(** A task that returned by itself reports to the group. *)
Definition early (g : errgroup.Group) (t : Blocking (option error))
  : errgroup.Group :=
  match t with
  | Returned res => errgroup.finished g res
  | AwaitDone _ => g
  end.

(** A task blocked on the context runs on once the context is done, and
    reports. *)
Definition resume (g : errgroup.Group) (t : Blocking (option error))
  : M errgroup.Group :=
  match t with
  | Returned _ => ret g
  | AwaitDone k => res <- k ;; ret (errgroup.finished g res)
  end.

Definition has_returned (t : Blocking (option error)) : bool :=
  match t with Returned _ => true | AwaitDone _ => false end.

(** The [Run] closure.  [signal] tells whether SIGINT or SIGTERM comes;
    [env], [conn] and [subs] are what the surroundings answer to the two
    tasks. *)
Definition Run (cfg : Config) (env : local.ServeEnv) (conn : mqtt.Token)
  (subs : list mqtt.Token) (signal : bool) : M RunEnd :=
  match util.EncodeSRv6Endpoint (srv6_net cfg) "ffffffffffff" "ffff" with
  | Err e => Printf "srv6_endpoint invalid: %v" [LErr (Some e)] ;;; ret Fatal
  | OK _ =>
      let g := errgroup.WithContext signal in
      tl <- local.Serve (l cfg) env ;;
      tr <- remote.Run (r cfg) conn subs ;;
      let g := early (early g tl) tr in
      if errgroup.done g || (has_returned tl && has_returned tr) then
        g <- resume g tl ;;
        g <- resume g tr ;;
        match errgroup.err g with
        | Some e => Printf "Error: %v" [LErr (Some e)]
        | None => ret tt
        end ;;;
        Printf "Shutdown" [] ;;;
        ret Returns
      else ret Waits
  end.

(** The exit status of the process; [None] while it keeps running.
    [execute_err] is the error [cmd.Execute] finds in the command line,
    in which case the [Run] closure is not called. *)
Definition main (cfg : Config) (execute_err : option error)
  (env : local.ServeEnv) (conn : mqtt.Token) (subs : list mqtt.Token)
  (signal : bool) : M (option Z) :=
  match execute_err with
  | Some e => Printf "Execution failed: %v" [LErr (Some e)] ;;; ret (Some 1)
  | None =>
      e <- Run cfg env conn subs signal ;;
      match e with
      | Fatal => ret (Some 1)
      | Returns => ret (Some 0)
      | Waits => ret None
      end
  end.

End WithImports.
End agent.

(** * A laboratory instance of the imported packages

    Text forms in the manner of Go's [net] package and the device names of
    the lab ([G{vpc}{attachment}V] for the VRF device), used to run the
    agent on concrete requests. *)

Module Lab.

Fixpoint split_acc (sep : ascii) (s : string) (cur : string) : list string :=
  match s with
  | EmptyString => [cur]
  | String c rest =>
      if Ascii.eqb c sep then cur :: split_acc sep rest EmptyString
      else split_acc sep rest (cur ++ String c EmptyString)
  end.

Definition split (sep : ascii) (s : string) : list string :=
  split_acc sep s EmptyString.

(** Cuts [s] at its first [::]. *)
Fixpoint cut_gap (s : string) (before : string) : option (string * string) :=
  match s with
  | String ":" (String ":" rest) => Some (before, rest)
  | String c rest => cut_gap rest (before ++ String c EmptyString)
  | EmptyString => None
  end.

Fixpoint parse_dec_acc (s : string) (acc : Z) : option Z :=
  match s with
  | EmptyString => Some acc
  | String c rest =>
      let n := Z.of_nat (nat_of_ascii c) in
      if (48 <=? n) && (n <=? 57) then parse_dec_acc rest (10 * acc + n - 48)
      else None
  end.

Definition parse_dec (s : string) : option Z :=
  match s with
  | EmptyString => None
  | _ => parse_dec_acc s 0
  end.

Fixpoint traverse {A B : Type} (f : A -> option B) (l : list A)
  : option (list B) :=
  match l with
  | [] => Some []
  | a :: rest =>
      match f a, traverse f rest with
      | Some b, Some bs => Some (b :: bs)
      | _, _ => None
      end
  end.

Definition groups_value (base : Z) (gs : list Z) : Z :=
  fold_left (fun acc g => acc * base + g) gs 0.

Definition parse_groups (s : string) : option (list Z) :=
  match s with
  | EmptyString => Some []
  | _ => traverse (Codec.parse_hex 4) (split ":" s)
  end.

Definition parse_ipv6 (s : string) : option Z :=
  match cut_gap s EmptyString with
  | Some (before, after) =>
      match parse_groups before, parse_groups after with
      | Some gl, Some gr =>
          let n := (List.length gl + List.length gr)%nat in
          if (n <? 8)%nat
          then Some (groups_value 65536 (gl ++ repeat 0 (8 - n) ++ gr))
          else None
      | _, _ => None
      end
  | None =>
      match parse_groups s with
      | Some gs =>
          if (List.length gs =? 8)%nat then Some (groups_value 65536 gs)
          else None
      | None => None
      end
  end.

Definition parse_ipv4 (s : string) : option Z :=
  match traverse parse_dec (split "." s) with
  | Some gs =>
      if (List.length gs =? 4)%nat && forallb (fun g => g <=? 255) gs
      then Some (65535 * 2 ^ 32 + groups_value 256 gs)
      else None
  | None => None
  end.

Definition lab_ParseIP (s : string) : result Z :=
  match parse_ipv4 s with
  | Some ip => OK ip
  | None =>
      match parse_ipv6 s with
      | Some ip => OK ip
      | None => Err (ErrText ("invalid IP address: " ++ s))
      end
  end.

Definition lab_ParseIPNet (s : string) : result Netlink.IPNet :=
  match split "/" s with
  | [addr; len] =>
      match lab_ParseIP addr, parse_dec len with
      | OK ip, Some n =>
          let bits := if Netlink.is_v4 ip then 32 else 128 in
          if n <=? bits then OK (Netlink.mkIPNet ip n bits)
          else Err (ErrText ("invalid CIDR address: " ++ s))
      | _, _ => Err (ErrText ("invalid CIDR address: " ++ s))
      end
  | _ => Err (ErrText ("invalid CIDR address: " ++ s))
  end.

Definition lab_ParseCIDR (s : string) : result Codec.Prefix :=
  match lab_ParseIPNet s with
  | OK n =>
      if Netlink.bits n =? 128
      then OK (Codec.mkPrefix
                 (Z.land (Netlink.IP n) (Codec.mask128 (Netlink.ones n)))
                 (Netlink.ones n))
      else Err (ErrText ("not an IPv6 prefix: " ++ s))
  | Err e => Err e
  end.

Definition lab_ParseSegments (l : list string) : result (list Z) :=
  fold_right
    (fun s acc =>
       match lab_ParseIP s, acc with
       | OK ip, OK ips => OK (ip :: ips)
       | Err e, _ => Err e
       | _, Err e => Err e
       end)
    (OK []) l.

(** Hex text of a group without leading zeros. *)
Fixpoint strip_zeros (s : string) : string :=
  match s with
  | String c rest =>
      match rest with
      | EmptyString => s
      | String _ _ => if Ascii.eqb c "0" then strip_zeros rest else s
      end
  | EmptyString => s
  end.

Definition group_text (g : Z) : string := strip_zeros (Codec.format_hex 4 g).

Fixpoint join (sep : string) (l : list string) : string :=
  match l with
  | [] => EmptyString
  | [x] => x
  | x :: rest => x ++ sep ++ join sep rest
  end.

Definition groups_of (ip : Z) : list Z :=
  map (fun i => Z.land (Z.shiftr ip (16 * (7 - Z.of_nat i))) 65535)
      (seq 0 8).

(** Length of the run of zero groups at the head of [gs]. *)
Fixpoint zero_run (gs : list Z) : nat :=
  match gs with
  | g :: rest => if g =? 0 then S (zero_run rest) else O
  | [] => O
  end.

(** Start and length of the longest run of zero groups, leftmost first. *)
Fixpoint best_run (gs : list Z) (i : nat) (best : nat * nat) : nat * nat :=
  match gs with
  | [] => best
  | _ :: rest =>
      let n := zero_run gs in
      best_run rest (S i) (if (snd best <? n)%nat then (i, n) else best)
  end.

Definition lab_FormatIP (ip : Z) : string :=
  let gs := groups_of ip in
  let '(start, n) := best_run gs O (O, O) in
  if (n <? 2)%nat then join ":" (map group_text gs)
  else join ":" (map group_text (firstn start gs)) ++ "::"
       ++ join ":" (map group_text (skipn (start + n) gs)).

Definition base62_digit (d : Z) : ascii :=
  if d <? 10 then ascii_of_nat (Z.to_nat (d + 48))
  else if d <? 36 then ascii_of_nat (Z.to_nat (d + 55))
  else ascii_of_nat (Z.to_nat (d + 61)).

Fixpoint format_base62 (width : nat) (n : Z) : string :=
  match width with
  | O => EmptyString
  | S w => format_base62 w (n / 62)
           ++ String (base62_digit (n mod 62)) EmptyString
  end.

(** Base 62 on [0-9A-Za-z], most significant digit first: 9 characters
    for 12 nibbles, 3 for 4. *)
Definition lab_HexToBase62 (s : string) : result string :=
  match Codec.parse_hex 16 s with
  | Some n => OK (format_base62 (String.length s * 3 / 4) n)
  | None => Err (ErrText ("invalid hex: " ++ s))
  end.

Definition is_ascii (s : string) : bool :=
  forallb (fun c => (nat_of_ascii c <? 128)%nat) (list_ascii_of_string s).

(** A length-delimited string field, as [encodeString] of
    [test-mqtt-route.go] writes it. *)
Definition encodeString (fieldNum : nat) (value : string) : string :=
  String (ascii_of_nat (fieldNum * 8 + 2))
         (String (ascii_of_nat (String.length value)) value).

(** [encodeVarint] of [test-mqtt-route.go]. *)
Definition encodeVarint (fieldNum : nat) (value : Z) : string :=
  String (ascii_of_nat (fieldNum * 8))
         (String (ascii_of_nat (Z.to_nat value)) EmptyString).

Definition lab_Marshal (e : Envelope) : result string :=
  match e with
  | Envelope_Register n ep =>
      if is_ascii n && is_ascii ep
      then OK (encodeString 1 (encodeString 1 n ++ encodeString 2 ep))
      else Err (ErrText "string field contains invalid UTF-8")
  | Envelope_Deregister n ep =>
      if is_ascii n && is_ascii ep
      then OK (encodeString 2 (encodeString 1 n ++ encodeString 2 ep))
      else Err (ErrText "string field contains invalid UTF-8")
  | Envelope_Route n ep segs st =>
      if is_ascii n && is_ascii ep && forallb is_ascii segs
      then OK (encodeString 3
                 (encodeString 1 n ++ encodeString 2 ep
                  ++ String.concat "" (map (encodeString 3) segs)
                  ++ encodeVarint 4 st))
      else Err (ErrText "string field contains invalid UTF-8")
  | Envelope_unset => OK EmptyString
  end.

(** A field of a record: its number and a length-delimited value or a
    one-byte varint. *)
Inductive Field : Type :=
| FBytes (num : nat) (value : string)
| FVarint (num : nat) (value : Z).

(** The first [n] characters of [s] and the rest. *)
Fixpoint take (n : nat) (s : string) : option (string * string) :=
  match n with
  | O => Some (EmptyString, s)
  | S m =>
      match s with
      | EmptyString => None
      | String c rest =>
          match take m rest with
          | Some (front, back) => Some (String c front, back)
          | None => None
          end
      end
  end.

Fixpoint fields (fuel : nat) (s : string) : option (list Field) :=
  match fuel with
  | O => None
  | S fuel' =>
      match s with
      | EmptyString => Some []
      | String _ EmptyString => None
      | String tag (String b rest) =>
          let num := (nat_of_ascii tag / 8)%nat in
          let wire := (nat_of_ascii tag mod 8)%nat in
          if (wire =? 2)%nat then
            match take (nat_of_ascii b) rest with
            | Some (value, more) =>
                option_map (cons (FBytes num value)) (fields fuel' more)
            | None => None
            end
          else if (wire =? 0)%nat then
            option_map (cons (FVarint num (Z.of_nat (nat_of_ascii b))))
                       (fields fuel' rest)
          else None
      end
  end.

Definition strings_of (num : nat) (fs : list Field) : list string :=
  flat_map (fun f => match f with
                     | FBytes n v => if (n =? num)%nat then [v] else []
                     | FVarint _ _ => []
                     end) fs.

Definition varint_of (num : nat) (fs : list Field) : Z :=
  fold_left (fun acc f => match f with
                          | FVarint n v => if (n =? num)%nat then v else acc
                          | FBytes _ _ => acc
                          end) fs 0.

Definition lab_Unmarshal (payload : string) : result Envelope :=
  match fields (S (String.length payload)) payload with
  | Some [] => OK Envelope_unset
  | Some [FBytes kind body] =>
      match fields (S (String.length body)) body with
      | Some fs =>
          let network := last (strings_of 1 fs) "" in
          let endpoint := last (strings_of 2 fs) "" in
          match kind with
          | 1%nat => OK (Envelope_Register network endpoint)
          | 2%nat => OK (Envelope_Deregister network endpoint)
          | 3%nat => OK (Envelope_Route network endpoint (strings_of 3 fs)
                                        (varint_of 4 fs))
          | _ => OK Envelope_unset
          end
      | None => Err (ErrText "cannot parse invalid wire-format data")
      end
  | _ => Err (ErrText "cannot parse invalid wire-format data")
  end.

#[local] Instance imports : Imports :=
  mkImports lab_ParseCIDR lab_FormatIP lab_ParseIP lab_ParseSegments
            lab_HexToBase62
            (fun vpc att => "G" ++ vpc ++ att ++ "H")
            (fun vpc att => "G" ++ vpc ++ att ++ "V")
            lab_ParseIPNet lab_Marshal lab_Unmarshal.

(** A host with the devices of VPC 1, attachment 1: the host device, the
    VRF device on table 100, the loopback of the agent. *)
Definition host : Netlink.Kernel :=
  Netlink.mkKernel
    [Netlink.mkLink "G000000001001H" 7 None;
     Netlink.mkLink "G000000001001V" 8 (Some 100);
     Netlink.mkLink "lo-galactic" 9 None]
    [] [].

(** The same host before its devices exist. *)
Definition bare : Netlink.Kernel := Netlink.mkKernel [] [] [].

(** The agent before [Remote.Run] has stored a client, and once the
    client is connected. *)
Definition booting (k : Netlink.Kernel) : World := mkWorld k None [] [].
Definition running (k : Netlink.Kernel) : World :=
  mkWorld k
          (Some (mqtt.mkClient true []
                   (remote.Run_options (agent.r agent.defaults))))
          [] [].

End Lab.

(** * The vocabulary of the properties *)

Module Specs.
Local Open Scope list_scope.

(** The subscribe request failed: the token timed out or carries an
    error. *)
Definition subscribe_failed (tok : mqtt.Token) : Prop :=
  mqtt.WaitTimeout tok = false \/ mqtt.TokError tok <> None.

(** The calls of the kernel programmer return (they do not panic),
    touch neither the client nor the log, and only add to the trace. *)
Definition quiet {A : Type} (m : M A) : Prop :=
  forall w, exists a w',
    m w = Done a w' /\ r_client w' = r_client w /\ logs w' = logs w
    /\ exists evs, trace w' = trace w ++ evs.

(** The neighbor entry [neighborproxy] builds. *)
Definition proxy_entry (link : Netlink.Link) (ipnet : Netlink.IPNet)
  : Netlink.Neigh :=
  Netlink.mkNeigh (Netlink.Index link) (Netlink.IP ipnet)
                  Netlink.NUD_PERMANENT Netlink.NTF_PROXY.

(** The route [routeingress.Delete] asks the kernel to remove. *)
Definition ingress_probe (link : Netlink.Link) (ip : Netlink.IPNet)
  : Netlink.Route :=
  Netlink.mkRoute ip 0 (Netlink.Index link)
    (Some (Netlink.EncapSEG6Local Netlink.SEG6LocalEncap_zero)).

(** The route [routeegress.Delete] asks the kernel to remove. *)
Definition egress_probe (lo : Netlink.Link) (table : Z)
  (prefix : Netlink.IPNet) : Netlink.Route :=
  Netlink.mkRoute prefix table (Netlink.Index lo) None.

(** The endpoint [fc00::1:1] of VPC 1, attachment 1, and the host prefix
    [192.168.2.5/32]. *)
Definition endpoint_1_1 : Z := 64512 * 2 ^ 112 + 65537.
Definition host_prefix : Netlink.IPNet :=
  Netlink.mkIPNet (65535 * 2 ^ 32 + 3232236037) 32 32.

(** The error [RouteEgressAdd] and [RouteEgressDel] return from the
    errors of their two operations. *)
Definition union (m1 : string) (e1 : option error)
  (m2 : string) (e2 : option error) : option error :=
  errors_Join (collect (collect [] m1 e1) m2 e2).

(** [Serve] returns by itself: the stale socket cannot be removed, or the
    socket cannot be bound. *)
Definition serve_fails (env : local.ServeEnv) : bool :=
  (negb (is_nil (local.RemoveErr env))
   && negb (local.RemoveIsNotExist env))
  || negb (is_nil (local.ListenErr env)).

(** [Remote.Run] returns by itself: the connect fails. *)
Definition connect_fails (conn : mqtt.Token) : bool :=
  negb (is_nil (mqtt.TokError conn)).

(** What [Remote.Run] does once the context is done. *)
Definition remote_shutdown : M (option error) :=
  remote.disconnect_if_connected ;;;
  Printf "MQTT disconnected" [] ;;;
  ret None.

(** What [Serve] does once the context is done. *)
Definition local_shutdown (env : local.ServeEnv) : M (option error) :=
  Printf "gRPC stopped" [] ;;; ret (local.GrpcServeErr env).

(** The socket cannot be bound (address in use) while the broker is
    reachable and no signal comes. *)
Definition bind_failure : local.ServeEnv :=
  local.mkServeEnv None false (Some (Errno 98)) None.

Definition granted : mqtt.Token := mqtt.mkToken true None.

Section WithImports.
Context {imports : Imports}.

(** The texts of a route message are well formed: the prefix, the
    endpoint and the segments parse, and the two identifiers of the
    endpoint have a base-62 form. *)
Definition parsed (prefixStr srcStr : string) (segmentsStr : list string)
  (prefix : Netlink.IPNet) (segments : list Z) (vpc att : string) : Prop :=
  ParseIPNet prefixStr = OK prefix
  /\ ParseSegments segmentsStr = OK segments
  /\ exists src,
       ParseIP srcStr = OK src
       /\ HexToBase62 (fst (Codec.Decode src)) = OK vpc
       /\ HexToBase62 (snd (Codec.Decode src)) = OK att.

(** The route is the ingress decapsulation route of the endpoint text
    [ep]: its destination is the endpoint as a host network and its
    encapsulation is SRv6 local processing with action End.DT46. *)
Definition is_ingress_route (ep : string) (route : Netlink.Route) : Prop :=
  exists ip enc,
    ParseIP ep = OK ip
    /\ Netlink.Dst route = Netlink.NewIPNet ip
    /\ Netlink.REncap route = Some (Netlink.EncapSEG6Local enc)
    /\ Netlink.LAction enc = Netlink.SEG6_LOCAL_ACTION_END_DT46.

(** The event is the hand-over to the remote client of one envelope
    [mk n ep], on the send topic and with the QoS of the agent. *)
Definition publish_of (cfg : agent.Config)
  (mk : string -> string -> Envelope) (ep n : string) (ev : Event) : Prop :=
  exists payload,
    Marshal (mk n ep) = OK payload
    /\ ev = EvPublish (agent.mqtt_topic_send cfg)
                      (agent.mqtt_qos cfg mod 256) false payload.

(** From [w] to [w'] one envelope was handed over for each network of
    [ns], in list order, and nothing else was done. *)
Definition handed (cfg : agent.Config) (mk : string -> string -> Envelope)
  (ep : string) (w w' : World) (ns : list string) : Prop :=
  kernel w' = kernel w
  /\ r_client w' = r_client w
  /\ exists pubs,
       trace w' = trace w ++ pubs /\ Forall2 (publish_of cfg mk ep) ns pubs.

(** What a publishing loop over [ns] does: it hands over every network;
    or it stops at the first network whose envelope does not marshal; or
    it panics in [Send] because no client is stored. *)
Definition loop_spec (cfg : agent.Config) (mk : string -> string -> Envelope)
  (ep : string) (ns : list string) (w : World) (o : Outcome (option error))
  : Prop :=
  match o with
  | Done None w' => handed cfg mk ep w w' ns
  | Done (Some e) w' =>
      exists sent n rest,
        ns = sent ++ n :: rest
        /\ Marshal (mk n ep) = Err e
        /\ handed cfg mk ep w w' sent
  | Panic _ w' =>
      r_client w = None
      /\ exists sent n rest,
           ns = sent ++ n :: rest /\ handed cfg mk ep w w' sent
  end.


(** Every step of a handler went well: the endpoint was encoded, the
    kernel operation [kernel_op] returned nil, and the envelope [mk n ep]
    of every network marshals. *)
Definition steps_ok (cfg : agent.Config) (mk : string -> string -> Envelope)
  (kernel_op : string -> M (option error)) (vpc att : string)
  (ns : list string) (w : World) : Prop :=
  exists ep,
    util.EncodeSRv6Endpoint (agent.srv6_net cfg) vpc att = OK ep
    /\ returned (kernel_op ep w) = Some None
    /\ Forall (fun n => exists payload, Marshal (mk n ep) = OK payload) ns.

End WithImports.
End Specs.

(** * The route injection script ([test-mqtt-route.go]) *)

Module testroute.

(** The conversion [byte(n)] of a Go [int]: its low eight bits. *)
Definition byte (n : Z) : ascii := ascii_of_nat (Z.to_nat (n mod 256)).

Definition encodeString (fieldNum : Z) (value : string) : string :=
  let tag := byte (Z.lor (Z.shiftl fieldNum 3) 2) in
  let length := byte (Z.of_nat (String.length value)) in
  String tag (String length value).

Definition encodeVarint (fieldNum value : Z) : string :=
  let tag := byte (Z.lor (Z.shiftl fieldNum 3) 0) in
  String tag (String (byte value) EmptyString).

Definition encodeRoute (network srv6Endpoint : string)
  (srv6Segments : list string) (status : Z) : string :=
  let route := EmptyString in
  let route := route ++ encodeString 1 network in
  let route := route ++ encodeString 2 srv6Endpoint in
  let route :=
    fold_left (fun route seg => route ++ encodeString 3 seg)
              srv6Segments route in
  route ++ encodeVarint 4 status.

Definition encodeEnvelope (route : string) : string :=
  let tag := byte (Z.lor (Z.shiftl 3 3) 2) in
  let length := byte (Z.of_nat (String.length route)) in
  String tag (String length route).

(** [for len(s) < width { s = "0" + s }], at most [rounds] times; [width]
    rounds are always enough. *)
Fixpoint pad_loop (rounds width : nat) (s : string) : string :=
  match rounds with
  | O => s
  | S rounds' =>
      if (String.length s <? width)%nat
      then pad_loop rounds' width ("0" ++ s)
      else s
  end.

Definition generateSRv6Endpoint (vpcHex vpcAttachmentHex : string)
  : string :=
  let vpcHex := pad_loop 12 12 vpcHex in
  let vpcAttachmentHex := pad_loop 4 4 vpcAttachmentHex in
  "fc00::" ++ substring 0 4 vpcHex ++ ":" ++ substring 4 4 vpcHex ++ ":"
  ++ substring 8 4 vpcHex ++ ":" ++ vpcAttachmentHex.



End testroute.

(** * More vocabulary: kernel states and resolved names *)

Module MoreSpecs.
Local Open Scope list_scope.








(** The call leaves the links of the kernel as they are, whether it
    returns or panics. *)
Definition keeps_links {A : Type} (m : M A) : Prop :=
  forall w,
    Netlink.links (kernel (world_of (m w))) = Netlink.links (kernel w).

(** The world after one netlink request [ev] that left the kernel as
    [k]. *)
Definition after (w : World) (ev : Event) (k : Netlink.Kernel) : World :=
  mkWorld k (r_client w) (trace w ++ [ev]) (logs w).

(** The world after one log line. *)
Definition logged (w : World) (format : string) (args : list LogArg)
  : World :=
  mkWorld (kernel w) (r_client w) (trace w) (logs w ++ [(format, args)]).

(** The event is a request to the kernel. *)
Definition is_netlink (ev : Event) : bool :=
  match ev with
  | EvRouteReplace _ | EvRouteDel _ | EvNeighAdd _ | EvNeighDel _ => true
  | _ => false
  end.

(** The call returns, leaves the client alone, and all it does to its
    surroundings is at most [n] requests to the kernel. *)
Definition kernel_call {A : Type} (n : nat) (m : M A) : Prop :=
  forall w, exists a w' evs,
    m w = Done a w'
    /\ r_client w' = r_client w
    /\ trace w' = trace w ++ evs
    /\ forallb is_netlink evs = true
    /\ (List.length evs <= n)%nat.

(** The broker granted the subscribe. *)
Definition granted_sub (tok : mqtt.Token) : bool :=
  mqtt.WaitTimeout tok && is_nil (mqtt.TokError tok).

(** Every string of the route record fits the one-byte length that
    [encodeString] writes, and the status fits a byte. *)
Definition fits (network endpoint : string) (segments : list string)
  (status : Z) : Prop :=
  (String.length network < 256)%nat
  /\ (String.length endpoint < 256)%nat
  /\ Forall (fun seg => (String.length seg < 256)%nat) segments
  /\ 0 <= status < 256.

(** [n] zero digits, the padding of the script. *)
Fixpoint zeros (n : nat) : string :=
  match n with
  | O => EmptyString
  | S n' => String "0" (zeros n')
  end.

Section WithImports.
Context {imports : Imports}.

(** The endpoint text [ep] is the address [ip], whose identifiers have
    the base-62 forms [vpc] and [att]. *)
Definition resolves (ep : string) (ip : Z) (vpc att : string) : Prop :=
  ParseIP ep = OK ip
  /\ HexToBase62 (fst (Codec.Decode ip)) = OK vpc
  /\ HexToBase62 (snd (Codec.Decode ip)) = OK att.


(** The route names the endpoint text [ep]: its destination is the
    endpoint as a host network. *)
Definition names_endpoint (ep : string) (route : Netlink.Route) : Prop :=
  exists ip,
    ParseIP ep = OK ip /\ Netlink.Dst route = Netlink.NewIPNet ip.

(** From [w] to [w'] the handler encoded the endpoint, removed its
    ingress route, which the kernel held, and then handed over one
    [Deregister] envelope for each network of [sent], in list order. *)
Definition withdrawn (cfg : agent.Config) (req : local.DeregisterRequest)
  (w w' : World) (sent : list string) : Prop :=
  exists ep route pubs,
    util.EncodeSRv6Endpoint (agent.srv6_net cfg) (local.DVpc req)
                            (local.DVpcattachment req) = OK ep
    /\ names_endpoint ep route
    /\ Netlink.has_route (kernel w) route = true
    /\ Netlink.has_route (kernel w') route = false
    /\ trace w' = trace w ++ EvRouteDel route :: pubs
    /\ Forall2 (Specs.publish_of cfg Envelope_Deregister ep) sent pubs.


End WithImports.
End MoreSpecs.

(** * Properties of the codec *)

Module CodecFacts.
Import Codec.

Lemma hexval_range (c : ascii) (d : Z) :
  hexval c = Some d -> 0 <= d < 16.
Proof.
  unfold hexval. cbv zeta.
  set (n := Z.of_nat (nat_of_ascii c)).
  destruct ((48 <=? n) && (n <=? 57)) eqn:E1;
    [|destruct ((97 <=? n) && (n <=? 102)) eqn:E2];
    intros H; inversion H; clear H;
    repeat match goal with
           | E : _ && _ = true |- _ => apply andb_true_iff in E as [? ?]
           | E : (_ <=? _) = true |- _ => apply Z.leb_le in E
           end; lia.
Qed.

Lemma hexdigit_hexval (c : ascii) (d : Z) :
  hexval c = Some d -> hexdigit d = c.
Proof.
  destruct c as [[] [] [] [] [] [] [] []]; vm_compute; intros H;
    solve [discriminate H | inversion H; reflexivity].
Qed.

Lemma format_hex_head (w : nat) (n : Z) :
  format_hex (S w) n
  = String (hexdigit ((n / 16 ^ Z.of_nat w) mod 16)) (format_hex w n).
Proof.
  revert n. induction w as [|w IH]; intros n.
  - simpl. now rewrite Z.div_1_r.
  - change (format_hex (S (S w)) n)
      with (format_hex (S w) (n / 16)
            ++ String (hexdigit (n mod 16)) EmptyString).
    rewrite IH. simpl.
    rewrite Z.div_div by lia.
    replace (16 * 16 ^ Z.of_nat w) with (16 ^ Z.of_nat (S w))
      by (rewrite Nat2Z.inj_succ, Z.pow_succ_r by lia; reflexivity).
    reflexivity.
Qed.

Lemma parse_hex_acc_nonneg (s : string) :
  forall acc n, 0 <= acc -> parse_hex_acc s acc = Some n -> 0 <= n.
Proof.
  induction s as [|c rest IH]; simpl; intros acc n Hacc H.
  - inversion H; subst; exact Hacc.
  - destruct (hexval c) as [d|] eqn:Hd; [|discriminate].
    apply hexval_range in Hd. apply (IH (16 * acc + d)); [lia | exact H].
Qed.

(** Printing what was parsed gives the text back, digit for digit. *)
Lemma format_parse_acc (s : string) :
  forall acc n,
    parse_hex_acc s acc = Some n ->
    format_hex (String.length s) n = s
    /\ n / 16 ^ Z.of_nat (String.length s) = acc.
Proof.
  induction s as [|c rest IH]; intros acc n H.
  - simpl in *. inversion H; subst. split; [reflexivity | apply Z.div_1_r].
  - cbn [parse_hex_acc] in H.
    destruct (hexval c) as [d|] eqn:Hd; [|discriminate].
    destruct (IH _ _ H) as [Hfmt Hdiv].
    pose proof (hexval_range _ _ Hd) as Hr.
    cbn [String.length]. rewrite format_hex_head, Hfmt, Hdiv. split.
    + replace ((16 * acc + d) mod 16) with d.
      * now rewrite (hexdigit_hexval _ _ Hd).
      * rewrite Z.add_comm, Z.mul_comm, Z.mod_add by lia.
        symmetry; apply Z.mod_small; lia.
    + rewrite Nat2Z.inj_succ, Z.pow_succ_r by lia.
      rewrite Z.mul_comm, <- Z.div_div by lia.
      rewrite Hdiv, Z.add_comm, Z.mul_comm, Z.div_add by lia.
      rewrite Z.div_small; lia.
Qed.

Lemma all_lower_hex_parses (s : string) :
  all_lower_hex s = true -> forall acc, exists n, parse_hex_acc s acc = Some n.
Proof.
  induction s as [|c rest IH]; simpl; intros H acc.
  - now exists acc.
  - apply andb_true_iff in H as [Hc Hrest]. unfold is_lower_hex in Hc.
    destruct (hexval c) as [d|]; [|discriminate]. now apply IH.
Qed.

(** A valid identifier of [S w] nibbles parses to a number below
    [16 ^ S w], and prints back to itself. *)
Lemma parse_hex_valid (w : nat) (s : string) :
  valid_hex (S w) s ->
  exists n, parse_hex (S w) s = Some n
            /\ 0 <= n < 16 ^ Z.of_nat (S w)
            /\ format_hex (S w) n = s.
Proof.
  intros [Hlen Hall].
  destruct (all_lower_hex_parses s Hall 0) as [n Hn].
  exists n. unfold parse_hex. rewrite Hlen.
  replace (Nat.eqb (S w) 0) with false by reflexivity.
  rewrite Nat.ltb_irrefl. cbn [orb].
  destruct (format_parse_acc s 0 n Hn) as [Hfmt Hdiv].
  pose proof (parse_hex_acc_nonneg s 0 n (Z.le_refl 0) Hn) as Hpos.
  rewrite Hlen in Hfmt, Hdiv. repeat split; try assumption.
  apply Z.div_small_iff in Hdiv; lia.
Qed.

Lemma testbit_above (x k n : Z) :
  0 <= x < 2 ^ k -> 0 <= k <= n -> Z.testbit x n = false.
Proof.
  intros Hx Hk. rewrite <- (Z.mod_small x (2 ^ k)) by exact Hx.
  apply Z.mod_pow2_bits_high; exact Hk.
Qed.

Lemma mask128_low (len n : Z) :
  0 <= len <= 64 -> 0 <= n < 64 -> Z.testbit (mask128 len) n = false.
Proof.
  intros Hlen Hn. unfold mask128. apply Z.shiftl_spec_low; lia.
Qed.

(** The two fields of the lower 64 bits of an encoded address. *)
Lemma endpoint_fields (addr len vpc attach : Z) :
  0 <= len <= 64 -> 0 <= vpc < 2 ^ 48 -> 0 <= attach < 2 ^ 16 ->
  let ip := Z.lor (Z.land addr (mask128 len))
                  (Z.lor (Z.shiftl vpc 16) attach) in
  Z.land (Z.shiftr ip 16) (Z.ones 48) = vpc
  /\ Z.land ip (Z.ones 16) = attach.
Proof.
  intros Hlen Hvpc Hatt ip. subst ip. split; apply Z.bits_inj'; intros n Hn.
  - rewrite Z.land_spec, Z.shiftr_spec, !Z.lor_spec, Z.land_spec by lia.
    destruct (Z.lt_ge_cases n 48) as [Hlt|Hge].
    + rewrite Z.ones_spec_low, mask128_low by lia.
      rewrite Z.shiftl_spec by lia.
      rewrite (testbit_above attach 16 (n + 16)) by lia.
      replace (n + 16 - 16) with n by lia.
      now rewrite andb_false_r, orb_false_r, andb_true_r.
    + rewrite Z.ones_spec_high, andb_false_r by lia.
      symmetry; apply (testbit_above vpc 48); lia.
  - rewrite Z.land_spec, !Z.lor_spec, Z.land_spec.
    destruct (Z.lt_ge_cases n 16) as [Hlt|Hge].
    + rewrite Z.ones_spec_low, mask128_low by lia.
      rewrite Z.shiftl_spec_low by lia.
      now rewrite andb_false_r, andb_true_r.
    + rewrite Z.ones_spec_high, andb_false_r by lia.
      symmetry; apply (testbit_above attach 16); lia.
Qed.

(** C1.  Codec round trip: for every valid base prefix (length at most
    64), every 12-nibble VPC and every 4-nibble attachment in lower-case
    hex, [Encode] succeeds and [Decode] of the address it makes gives
    back exactly the two strings, leading zeros included. *)
Theorem decode_encode_roundtrip (base : Prefix) (vpcHex attachHex : string) :
  valid_base base -> valid_hex 12 vpcHex -> valid_hex 4 attachHex ->
  exists ip,
    Encode base vpcHex attachHex = inr ip
    /\ Decode ip = (vpcHex, attachHex).
Proof.
  intros [_ Hlen] Hvpc Hatt.
  destruct (parse_hex_valid _ _ Hvpc) as (v & Hpv & Hv & Hfv).
  destruct (parse_hex_valid _ _ Hatt) as (a & Hpa & Ha & Hfa).
  unfold Encode. rewrite Hpv, Hpa.
  replace (64 <? prefix_len base) with false by (symmetry; apply Z.ltb_ge; lia).
  eexists; split; [reflexivity|].
  change (16 ^ Z.of_nat 12) with (2 ^ 48) in Hv.
  change (16 ^ Z.of_nat 4) with (2 ^ 16) in Ha.
  destruct (endpoint_fields (prefix_addr base) (prefix_len base) v a
              Hlen Hv Ha) as [E1 E2].
  unfold Decode. now rewrite E1, E2, Hfv, Hfa.
Qed.

(** The round trip at the extremes: base [fc00::/48], all-ones
    identifiers. *)
Lemma decode_encode_roundtrip_witness :
  exists ip,
    Encode (mkPrefix (64512 * 2 ^ 112) 48) "ffffffffffff" "ffff" = inr ip
    /\ Decode ip = ("ffffffffffff", "ffff").
Proof.
  apply decode_encode_roundtrip.
  - unfold valid_base; simpl; lia.
  - split; reflexivity.
  - split; reflexivity.
Defined.

(** Scenario 1: base [fc00::/56], VPC 1, attachment 1; the lower 64 bits
    of the endpoint are [0x0000000000010001]. *)
Example encode_scenario :
  Encode (mkPrefix (64512 * 2 ^ 112) 56) "000000000001" "0001"
  = inr (64512 * 2 ^ 112 + 65537).
Proof. reflexivity. Qed.

End CodecFacts.

(** * Properties of the remote client *)

Module RemoteFacts.
Import Specs.
Import mqtt.
Import remote.

Lemma CleanSession_Run_options (r : Remote) :
  CleanSession (Run_options r)
  = (String.eqb (ClientID r) "" || (QoS r =? 0)).
Proof. reflexivity. Qed.

(** Each connection keeps the client stored, connected and with its
    options. *)
Lemma each_connect_keeps r subs :
  forall w c,
    r_client w = Some c ->
    exists w' c',
      each_connect r subs w = Done tt w'
      /\ r_client w' = Some c'
      /\ connected c' = connected c
      /\ options c' = options c.
Proof.
  induction subs as [|tok subs IH]; intros w c Hc.
  - exists w, c. repeat split. exact Hc.
  - cbn [each_connect]. unfold bind at 1.
    unfold OnConnect, Subscribe, Printf, bind. cbn.
    rewrite Hc.
    destruct (negb (WaitTimeout tok) || negb (is_nil (TokError tok)));
      (destruct (WaitTimeout tok && is_nil (TokError tok));
       match goal with
       | |- context [each_connect r subs ?w1] =>
           edestruct (IH w1) as (w' & c' & E & Hc' & Hconn & Hopts);
           [reflexivity
           | exists w', c'; rewrite E; repeat split; assumption]
       end).
Qed.

(** The client [Run] stores is made from the options [Run] built. *)
Lemma Run_stores_options r conn subs w :
  exists c,
    r_client (world_of (Run r conn subs w)) = Some c
    /\ options c = Run_options r.
Proof.
  unfold Run, store_client, Connect, Printf.
  unfold bind at 1 2 3. cbn.
  destruct (TokError conn) as [e|]; cbn.
  - eexists. split; reflexivity.
  - unfold bind at 1.
    match goal with
    | |- context [each_connect r subs ?w1] =>
        edestruct (each_connect_keeps r subs w1)
          as (w' & c' & E & Hc' & _ & Hopts);
        [reflexivity|]
    end.
    rewrite E. exists c'. split; assumption.
Qed.

(** C8.  The client [Run] stores is made from options whose session is
    persistent (clean-session flag false) exactly when the client
    identifier is not empty and the QoS, a byte, is at least 1; the
    session is clean when the identifier is empty or the QoS is 0. *)
Theorem persistent_session_iff (r : Remote) (conn : Token)
  (subs : list Token) (w : World) :
  0 <= QoS r < 256 ->
  (exists c,
      r_client (world_of (Run r conn subs w)) = Some c
      /\ options c = Run_options r)
  /\ (CleanSession (Run_options r) = false <->
      ClientID r <> "" /\ 1 <= QoS r)
  /\ (CleanSession (Run_options r) = true <->
      ClientID r = "" \/ QoS r = 0).
Proof.
  intros Hq. split; [apply Run_stores_options|].
  rewrite CleanSession_Run_options.
  destruct (String.eqb_spec (ClientID r) ""), (Z.eqb_spec (QoS r) 0);
    cbn [orb]; repeat split; intros; try tauto; try lia; try discriminate;
    intuition (try congruence; try lia).
Qed.

(** The default QoS 1 with a client identifier: a persistent session. *)
Lemma persistent_session_iff_witness :
  let r := mkRemote "tcp://mqtt:1883" "agent-1" "" "" 1
                    "galactic/default/receive" "galactic/default/send"
                    (fun _ => ret None) in
  let w := Lab.booting Lab.host in
  (exists c,
      r_client (world_of (Run r (mkToken true None) [mkToken true None] w))
      = Some c
      /\ options c = Run_options r)
  /\ (CleanSession (Run_options r) = false <->
      ClientID r <> "" /\ 1 <= QoS r)
  /\ (CleanSession (Run_options r) = true <->
      ClientID r = "" \/ QoS r = 0).
Proof.
  intros r w.
  apply (persistent_session_iff r (mkToken true None) [mkToken true None] w).
  simpl. lia.
Defined.

(** C9, as the code has it.  When the subscribe to the receive topic
    fails after a connect, [OnConnect] issues the subscribe request, logs
    the error and returns: no disconnect and no connect request follows,
    and the client is left as it was, connected and without the
    subscription. *)
Theorem subscribe_failure_keeps_connection (r : Remote) (tok : Token)
  (w : World) :
  subscribe_failed tok ->
  OnConnect r tok w
  = Done tt (mkWorld (kernel w) (r_client w)
                     (trace w ++ [EvSubscribe (TopicRX r) (QoS r)])
                     (logs w ++ [("MQTT connected", []);
                                 ("MQTT subscribe error: %v",
                                  [LErr (TokError tok)])])).
Proof.
  intros Hfail. unfold OnConnect, Subscribe, Printf, bind. cbn.
  assert (Hb : WaitTimeout tok && is_nil (TokError tok) = false).
  { destruct Hfail as [-> | Hne]; [reflexivity|].
    destruct (TokError tok); [apply andb_false_r | congruence]. }
  rewrite Hb.
  assert (Hc : negb (WaitTimeout tok) || negb (is_nil (TokError tok)) = true).
  { destruct (WaitTimeout tok), (TokError tok); cbn in *;
      try reflexivity; discriminate. }
  rewrite Hc. cbn. rewrite <- app_assoc.
  destruct (r_client w); reflexivity.
Qed.

(** The subscribe times out on a connected client. *)
Lemma subscribe_failure_keeps_connection_witness :
  OnConnect (@agent.r Lab.imports agent.defaults) (mkToken false None)
            (Lab.running Lab.host)
  = Done tt (mkWorld Lab.host (r_client (Lab.running Lab.host))
                     [EvSubscribe "galactic/default/receive" 1]
                     [("MQTT connected", []);
                      ("MQTT subscribe error: %v", [LErr None])]).
Proof.
  apply (subscribe_failure_keeps_connection
           (@agent.r Lab.imports agent.defaults) (mkToken false None)
           (Lab.running Lab.host)).
  left. reflexivity.
Defined.

(** C9 as stated fails: after a subscribe that timed out the client is
    still connected and neither a disconnect nor a new connect was
    issued. *)
Lemma subscribe_failure_no_retry :
  let w' := world_of (OnConnect (@agent.r Lab.imports agent.defaults)
                                (mkToken false None)
                                (Lab.running Lab.host)) in
  option_map connected (r_client w') = Some true
  /\ ~ (exists q, In (EvDisconnect q) (trace w'))
  /\ ~ In EvConnect (trace w').
Proof.
  cbn. repeat split.
  - intros [q [H | []]]; discriminate H.
  - intros [H | []]; discriminate H.
Qed.

End RemoteFacts.

(** * Properties of the kernel programmer *)

Module KernelFacts.
Import Specs.
Section WithImports.
Context {imports : Imports}.

Lemma quiet_ret {A : Type} (a : A) : quiet (ret a).
Proof.
  intros w. exists a, w. repeat split.
  exists nil. now rewrite app_nil_r.
Qed.

Lemma quiet_bind {A B : Type} (m : M A) (f : A -> M B) :
  quiet m -> (forall a, quiet (f a)) -> quiet (bind m f).
Proof.
  intros Hm Hf w.
  destruct (Hm w) as (a & w1 & E1 & Hc1 & Hl1 & evs1 & Ht1).
  destruct (Hf a w1) as (b & w2 & E2 & Hc2 & Hl2 & evs2 & Ht2).
  exists b, w2. unfold bind. rewrite E1, E2.
  repeat split; try congruence.
  exists (app evs1 evs2). now rewrite Ht2, Ht1, app_assoc.
Qed.

Lemma quiet_request {A : Type} (e : Event)
  (op : Netlink.Kernel -> A * Netlink.Kernel) : quiet (request e op).
Proof.
  intros w. unfold request. destruct (op (kernel w)) as [a k].
  eexists _, _. repeat split. eexists. reflexivity.
Qed.

Lemma quiet_LinkByName (name : string) : quiet (LinkByName name).
Proof.
  intros w. eexists _, _. repeat split.
  exists nil. cbn. now rewrite app_nil_r.
Qed.

Lemma quiet_try {A : Type} (r : result A) (msg : string)
  (k : A -> M (option error)) :
  (forall a, quiet (k a)) -> quiet (try_wrap r msg k).
Proof. intros Hk. destruct r; cbn; [apply Hk | apply quiet_ret]. Qed.

Create HintDb quiet.
#[local] Hint Resolve quiet_ret quiet_request quiet_LinkByName : quiet.

Ltac quiet_tac :=
  repeat first
    [ solve [auto with quiet]
    | apply quiet_bind; [|intros ?]
    | apply quiet_try; intros ?
    | match goal with
      | |- quiet (match ?x with _ => _ end) => destruct x
      | |- quiet (if ?x then _ else _) => destruct x
      end ].

Lemma quiet_GetVRFIdForVPC (vpc att : string) :
  quiet (vrf.GetVRFIdForVPC vpc att).
Proof. unfold vrf.GetVRFIdForVPC. quiet_tac. Qed.

Lemma quiet_neighborproxy_Add ipnet vpc att :
  quiet (neighborproxy.Add ipnet vpc att).
Proof. unfold neighborproxy.Add, NeighAdd. quiet_tac. Qed.

Lemma quiet_neighborproxy_Delete ipnet vpc att :
  quiet (neighborproxy.Delete ipnet vpc att).
Proof. unfold neighborproxy.Delete, NeighDel. quiet_tac. Qed.

Lemma quiet_routeingress_Add ip vpc att :
  quiet (routeingress.Add ip vpc att).
Proof.
  unfold routeingress.Add, RouteReplace.
  apply quiet_bind; [apply quiet_LinkByName | intros [link|e]];
    [|apply quiet_ret].
  apply quiet_bind; [apply quiet_GetVRFIdForVPC | intros [t|e]];
    quiet_tac.
Qed.

Lemma quiet_routeingress_Delete ip vpc att :
  quiet (routeingress.Delete ip vpc att).
Proof. unfold routeingress.Delete, RouteDel. quiet_tac. Qed.

Lemma quiet_routeegress_Add vpc att prefix segments :
  quiet (routeegress.Add vpc att prefix segments).
Proof.
  unfold routeegress.Add, RouteReplace.
  apply quiet_bind; [apply quiet_LinkByName | intros [link|e]];
    [|apply quiet_ret].
  apply quiet_bind; [apply quiet_GetVRFIdForVPC | intros [t|e]];
    quiet_tac.
Qed.

Lemma quiet_routeegress_Delete vpc att prefix segments :
  quiet (routeegress.Delete vpc att prefix segments).
Proof.
  unfold routeegress.Delete, RouteDel.
  apply quiet_bind; [apply quiet_LinkByName | intros [link|e]];
    [|apply quiet_ret].
  apply quiet_bind; [apply quiet_GetVRFIdForVPC | intros [t|e]];
    quiet_tac.
Qed.

Lemma quiet_RouteIngressAdd ep : quiet (srv6.RouteIngressAdd ep).
Proof.
  unfold srv6.RouteIngressAdd.
  repeat (apply quiet_try; intros ?).
  apply quiet_bind; [apply quiet_routeingress_Add | intros [e|]];
    apply quiet_ret.
Qed.

Lemma quiet_RouteIngressDel ep : quiet (srv6.RouteIngressDel ep).
Proof.
  unfold srv6.RouteIngressDel.
  repeat (apply quiet_try; intros ?).
  apply quiet_bind; [apply quiet_routeingress_Delete | intros [e|]];
    apply quiet_ret.
Qed.

Lemma LinkByName_run (name : string) (w : World) :
  LinkByName name w = Done (Netlink.LinkByName (kernel w) name) w.
Proof. reflexivity. Qed.

Lemma GetVRFIdForVPC_found vpc att dev t w :
  Netlink.LinkByName (kernel w) (GenerateInterfaceNameVRF vpc att) = OK dev ->
  Netlink.VrfTable dev = Some t ->
  vrf.GetVRFIdForVPC vpc att w = Done (OK t) w.
Proof.
  intros Hdev Ht. unfold vrf.GetVRFIdForVPC, bind.
  rewrite LinkByName_run, Hdev, Ht. reflexivity.
Qed.

Lemma GetVRFIdForVPC_pure vpc att w :
  exists r, vrf.GetVRFIdForVPC vpc att w = Done r w.
Proof.
  unfold vrf.GetVRFIdForVPC, bind. rewrite LinkByName_run.
  destruct (Netlink.LinkByName _ _) as [dev|e]; [|eexists; reflexivity].
  destruct (Netlink.VrfTable dev); eexists; reflexivity.
Qed.

Lemma routeingress_Delete_absent ip vpc att host w :
  Netlink.LinkByName (kernel w) (GenerateInterfaceNameHost vpc att)
  = OK host ->
  Netlink.has_route (kernel w) (ingress_probe host ip) = false ->
  routeingress.Delete ip vpc att w
  = Done (Some (Errno Netlink.ESRCH))
         (mkWorld (kernel w) (r_client w)
                  (trace w ++ [EvRouteDel (ingress_probe host ip)])
                  (logs w)).
Proof.
  intros Hhost Habs. unfold routeingress.Delete, bind.
  rewrite LinkByName_run, Hhost. unfold RouteDel, request, Netlink.RouteDel.
  fold (ingress_probe host ip). rewrite Habs. reflexivity.
Qed.

Lemma routeegress_Delete_absent vpc att prefix segments lo dev t w :
  Netlink.LinkByName (kernel w) routeegress.LoopbackDevice = OK lo ->
  Netlink.LinkByName (kernel w) (GenerateInterfaceNameVRF vpc att) = OK dev ->
  Netlink.VrfTable dev = Some t ->
  Netlink.has_route (kernel w) (egress_probe lo t prefix) = false ->
  routeegress.Delete vpc att prefix segments w
  = Done (Some (Errno Netlink.ESRCH))
         (mkWorld (kernel w) (r_client w)
                  (trace w ++ [EvRouteDel (egress_probe lo t prefix)])
                  (logs w)).
Proof.
  intros Hlo Hdev Ht Habs. unfold routeegress.Delete, bind.
  rewrite LinkByName_run, Hlo, (GetVRFIdForVPC_found _ _ _ _ _ Hdev Ht).
  unfold RouteDel, request, Netlink.RouteDel.
  fold (egress_probe lo t prefix). rewrite Habs. reflexivity.
Qed.

Lemma neighborproxy_Delete_absent ipnet vpc att host w :
  Netlink.LinkByName (kernel w) (GenerateInterfaceNameHost vpc att)
  = OK host ->
  Netlink.has_neigh (kernel w) (proxy_entry host ipnet) = false ->
  neighborproxy.Delete ipnet vpc att w
  = Done (Some (Errno Netlink.ENOENT))
         (mkWorld (kernel w) (r_client w)
                  (trace w ++ [EvNeighDel (proxy_entry host ipnet)])
                  (logs w)).
Proof.
  intros Hhost Habs. unfold neighborproxy.Delete, bind.
  rewrite LinkByName_run, Hhost. unfold NeighDel, request, Netlink.NeighDel.
  fold (proxy_entry host ipnet). rewrite Habs. reflexivity.
Qed.

(** C3, as the code has it.  A delete whose target kernel entry is
    absent hands the kernel's answer back as an error: [ESRCH] for the
    endpoint route of [routeingress.Delete] and for the VRF-table route
    of [routeegress.Delete], [ENOENT] for the proxy-neighbor entry of
    [neighborproxy.Delete]; the kernel tables are left as they were. *)
Theorem delete_of_absent_entry_is_an_error
  (vpc att : string) (ip prefix : Netlink.IPNet) (segments : list Z)
  (host lo dev : Netlink.Link) (t : Z) (w : World) :
  Netlink.LinkByName (kernel w) (GenerateInterfaceNameHost vpc att)
  = OK host ->
  Netlink.LinkByName (kernel w) routeegress.LoopbackDevice = OK lo ->
  Netlink.LinkByName (kernel w) (GenerateInterfaceNameVRF vpc att) = OK dev ->
  Netlink.VrfTable dev = Some t ->
  Netlink.has_route (kernel w) (ingress_probe host ip) = false ->
  Netlink.has_route (kernel w) (egress_probe lo t prefix) = false ->
  Netlink.has_neigh (kernel w) (proxy_entry host prefix) = false ->
  (returned (routeingress.Delete ip vpc att w)
   = Some (Some (Errno Netlink.ESRCH))
   /\ kernel (world_of (routeingress.Delete ip vpc att w)) = kernel w)
  /\ (returned (routeegress.Delete vpc att prefix segments w)
      = Some (Some (Errno Netlink.ESRCH))
      /\ kernel (world_of (routeegress.Delete vpc att prefix segments w))
         = kernel w)
  /\ (returned (neighborproxy.Delete prefix vpc att w)
      = Some (Some (Errno Netlink.ENOENT))
      /\ kernel (world_of (neighborproxy.Delete prefix vpc att w))
         = kernel w).
Proof.
  intros Hhost Hlo Hdev Ht Hin Heg Hng.
  rewrite (routeingress_Delete_absent _ _ _ _ _ Hhost Hin).
  rewrite (routeegress_Delete_absent _ _ _ segments _ _ _ _ Hlo Hdev Ht Heg).
  rewrite (neighborproxy_Delete_absent _ _ _ _ _ Hhost Hng).
  repeat split.
Qed.

End WithImports.
(** On the lab host, whose tables are empty. *)
Lemma delete_of_absent_entry_is_an_error_witness :
  let w := Lab.running Lab.host in
  let ip := Netlink.NewIPNet endpoint_1_1 in
  (returned (@routeingress.Delete Lab.imports ip "000000001" "001" w)
   = Some (Some (Errno Netlink.ESRCH))
   /\ kernel (world_of (@routeingress.Delete Lab.imports ip
                          "000000001" "001" w)) = kernel w)
  /\ (returned (@routeegress.Delete Lab.imports "000000001" "001"
                  host_prefix [] w)
      = Some (Some (Errno Netlink.ESRCH))
      /\ kernel (world_of (@routeegress.Delete Lab.imports "000000001" "001"
                             host_prefix [] w)) = kernel w)
  /\ (returned (@neighborproxy.Delete Lab.imports host_prefix
                  "000000001" "001" w)
      = Some (Some (Errno Netlink.ENOENT))
      /\ kernel (world_of (@neighborproxy.Delete Lab.imports host_prefix
                             "000000001" "001" w)) = kernel w).
Proof.
  intros w ip.
  apply (@delete_of_absent_entry_is_an_error Lab.imports
           "000000001" "001" ip host_prefix []
           (Netlink.mkLink "G000000001001H" 7 None)
           (Netlink.mkLink "lo-galactic" 9 None)
           (Netlink.mkLink "G000000001001V" 8 (Some 100)) 100 w);
    reflexivity.
Defined.

(** C3 as stated fails: on a host whose devices exist and whose route
    and neighbor tables are empty, every delete returns an error, at the
    level of the packages and at the level of [srv6]. *)
Lemma delete_of_absent_entry_not_success :
  let w := Lab.running Lab.host in
  Netlink.routes (kernel w) = [] /\ Netlink.neighs (kernel w) = []
  /\ returned (@routeingress.Delete Lab.imports
                 (Netlink.NewIPNet endpoint_1_1) "000000001" "001" w)
     = Some (Some (Errno 3))
  /\ returned (@routeegress.Delete Lab.imports "000000001" "001"
                 host_prefix [] w)
     = Some (Some (Errno 3))
  /\ returned (@neighborproxy.Delete Lab.imports host_prefix
                 "000000001" "001" w)
     = Some (Some (Errno 2))
  /\ returned (@srv6.RouteIngressDel Lab.imports "fc00::1:1" w)
     = Some (Some (Wrapped "routeingress delete failed" (Errno 3)))
  /\ returned (@srv6.RouteEgressDel Lab.imports "192.168.2.5/32"
                 "fc00::1:1" ["fc00:0:3::"] w)
     = Some (Some (Joined
                     [Wrapped "neighborproxy delete failed" (Errno 2);
                      Wrapped "routeegress delete failed" (Errno 3)])).
Proof. vm_compute. repeat split. Qed.

End KernelFacts.

(** * Properties of the egress operations *)

Module EgressFacts.
Import Specs.
Import KernelFacts.
Local Open Scope list_scope.

Section WithImports.
Context {imports : Imports}.

Lemma union_nil_iff m1 e1 m2 e2 :
  union m1 e1 m2 e2 = None <-> e1 = None /\ e2 = None.
Proof.
  unfold union. destruct e1, e2; cbn; split;
    try discriminate; try tauto; intros [? ?]; discriminate.
Qed.

Lemma union_contains_first m1 e1 m2 e2 x :
  e1 = Some x -> exists j, union m1 e1 m2 e2 = Some j /\ Contains x j.
Proof.
  intros ->. unfold union. destruct e2; cbn; eexists; split;
    try reflexivity;
    (eapply Contains_joined;
     [left; reflexivity | apply Contains_wrapped, Contains_here]).
Qed.

Lemma union_contains_second m1 e1 m2 e2 x :
  e2 = Some x -> exists j, union m1 e1 m2 e2 = Some j /\ Contains x j.
Proof.
  intros ->. unfold union. destruct e1; cbn; eexists; split;
    try reflexivity.
  - eapply Contains_joined;
      [right; left; reflexivity | apply Contains_wrapped, Contains_here].
  - eapply Contains_joined;
      [left; reflexivity | apply Contains_wrapped, Contains_here].
Qed.

(** After the parsing steps, [RouteEgressAdd] on a host prefix is the
    neighbor operation followed by the route operation. *)
Lemma RouteEgressAdd_parsed prefixStr srcStr segmentsStr prefix segments
  vpc att w :
  parsed prefixStr srcStr segmentsStr prefix segments vpc att ->
  srv6.RouteEgressAdd prefixStr srcStr segmentsStr w
  = (errs <- (if util.IsHost prefix
              then err <- neighborproxy.Add prefix vpc att ;;
                   ret (collect [] "neighborproxy add failed" err)
              else ret []) ;;
     err <- routeegress.Add vpc att prefix segments ;;
     ret (errors_Join (collect errs "routeegress add failed" err))) w.
Proof.
  intros (Hp & Hs & src & Hsrc & Hv & Ha).
  unfold srv6.RouteEgressAdd, try_wrap, util.DecodeSRv6Endpoint.
  rewrite Hp, Hsrc, Hs, Hv, Ha.
  destruct (util.IsHost prefix); unfold bind, ret; cbv beta;
    repeat match goal with
           | |- context [match ?x with Done _ _ => _ | Panic _ _ => _ end] =>
               destruct x; try reflexivity
           end;
    match goal with
    | |- context [collect ?a ?b ?c] => destruct (collect a b c)
    end; reflexivity.
Qed.

Lemma RouteEgressDel_parsed prefixStr srcStr segmentsStr prefix segments
  vpc att w :
  parsed prefixStr srcStr segmentsStr prefix segments vpc att ->
  srv6.RouteEgressDel prefixStr srcStr segmentsStr w
  = (errs <- (if util.IsHost prefix
              then err <- neighborproxy.Delete prefix vpc att ;;
                   ret (collect [] "neighborproxy delete failed" err)
              else ret []) ;;
     err <- routeegress.Delete vpc att prefix segments ;;
     ret (errors_Join (collect errs "routeegress delete failed" err))) w.
Proof.
  intros (Hp & Hs & src & Hsrc & Hv & Ha).
  unfold srv6.RouteEgressDel, try_wrap, util.DecodeSRv6Endpoint.
  rewrite Hp, Hsrc, Hs, Hv, Ha.
  destruct (util.IsHost prefix); unfold bind, ret; cbv beta;
    repeat match goal with
           | |- context [match ?x with Done _ _ => _ | Panic _ _ => _ end] =>
               destruct x; try reflexivity
           end;
    match goal with
    | |- context [collect ?a ?b ?c] => destruct (collect a b c)
    end; reflexivity.
Qed.

(** C7.  On a host prefix, [RouteEgressAdd] runs the neighbor-proxy
    operation and then the route operation on the world the first one
    left, whether or not the first one failed; [RouteEgressDel] does the
    same with the two deletes.  The error returned is the join of the
    individual errors: nil exactly when both are nil, and each individual
    error is found in it. *)
Theorem egress_errors_are_joined
  (prefixStr srcStr : string) (segmentsStr : list string)
  (prefix : Netlink.IPNet) (segments : list Z) (vpc att : string)
  (w : World) :
  parsed prefixStr srcStr segmentsStr prefix segments vpc att ->
  util.IsHost prefix = true ->
  (exists e1 w1 e2 w2,
      neighborproxy.Add prefix vpc att w = Done e1 w1
      /\ routeegress.Add vpc att prefix segments w1 = Done e2 w2
      /\ srv6.RouteEgressAdd prefixStr srcStr segmentsStr w
         = Done (union "neighborproxy add failed" e1
                       "routeegress add failed" e2) w2)
  /\ (exists e1 w1 e2 w2,
         neighborproxy.Delete prefix vpc att w = Done e1 w1
         /\ routeegress.Delete vpc att prefix segments w1 = Done e2 w2
         /\ srv6.RouteEgressDel prefixStr srcStr segmentsStr w
            = Done (union "neighborproxy delete failed" e1
                          "routeegress delete failed" e2) w2)
  /\ (forall m1 e1 m2 e2,
         (union m1 e1 m2 e2 = None <-> e1 = None /\ e2 = None)
         /\ (forall x, e1 = Some x ->
                       exists j, union m1 e1 m2 e2 = Some j /\ Contains x j)
         /\ (forall x, e2 = Some x ->
                       exists j, union m1 e1 m2 e2 = Some j /\ Contains x j)).
Proof.
  intros Hparsed Hhost. split; [|split].
  - destruct (quiet_neighborproxy_Add prefix vpc att w)
      as (e1 & w1 & E1 & _).
    destruct (quiet_routeegress_Add vpc att prefix segments w1)
      as (e2 & w2 & E2 & _).
    exists e1, w1, e2, w2. repeat split; try assumption.
    rewrite (RouteEgressAdd_parsed _ _ _ _ _ _ _ _ Hparsed), Hhost.
    unfold bind, ret. rewrite E1. cbv beta iota. rewrite E2. reflexivity.
  - destruct (quiet_neighborproxy_Delete prefix vpc att w)
      as (e1 & w1 & E1 & _).
    destruct (quiet_routeegress_Delete vpc att prefix segments w1)
      as (e2 & w2 & E2 & _).
    exists e1, w1, e2, w2. repeat split; try assumption.
    rewrite (RouteEgressDel_parsed _ _ _ _ _ _ _ _ Hparsed), Hhost.
    unfold bind, ret. rewrite E1. cbv beta iota. rewrite E2. reflexivity.
  - intros m1 e1 m2 e2. split; [apply union_nil_iff|].
    split; intros x Hx;
      [eapply union_contains_first | eapply union_contains_second];
      exact Hx.
Qed.

Lemma neighborproxy_Add_found ipnet vpc att host w :
  Netlink.LinkByName (kernel w) (GenerateInterfaceNameHost vpc att)
  = OK host ->
  neighborproxy.Add ipnet vpc att w
  = Done None
      (mkWorld
         (Netlink.mkKernel
            (Netlink.links (kernel w)) (Netlink.routes (kernel w))
            (proxy_entry host ipnet
             :: filter (fun x =>
                          negb (Netlink.same_neigh (proxy_entry host ipnet) x))
                       (Netlink.neighs (kernel w))))
         (r_client w)
         (trace w ++ [EvNeighAdd (proxy_entry host ipnet)])
         (logs w)).
Proof.
  intros Hhost. unfold neighborproxy.Add, bind.
  rewrite LinkByName_run, Hhost. reflexivity.
Qed.

(** The route operation of [RouteEgressAdd] leaves the neighbor table
    alone. *)
Lemma routeegress_Add_frame vpc att prefix segments w :
  exists e w' evs,
    routeegress.Add vpc att prefix segments w = Done e w'
    /\ Netlink.neighs (kernel w') = Netlink.neighs (kernel w)
    /\ trace w' = trace w ++ evs
    /\ forall n, ~ In (EvNeighAdd n) evs.
Proof.
  unfold routeegress.Add, bind. rewrite LinkByName_run.
  destruct (Netlink.LinkByName _ _) as [lo|e].
  - destruct (GetVRFIdForVPC_pure vpc att w) as [[t|e] ->].
    + eexists _, _, [_]. repeat split.
      intros n [H | []]. discriminate H.
    + exists (Some e), w, []. rewrite app_nil_r. repeat split. intros n [].
  - exists (Some e), w, []. rewrite app_nil_r. repeat split. intros n [].
Qed.

Lemma IsHost_iff (p : Netlink.IPNet) :
  util.IsHost p = true <-> Netlink.ones p = Netlink.bits p.
Proof. unfold util.IsHost. rewrite Z.eqb_eq. lia. Qed.

(** C6.  For an [EgressAdd] whose texts are well formed and whose
    per-attachment host device exists, the proxy-neighbor entry for the
    address of the prefix (state permanent, flag proxy, on the host
    device) is asked of the kernel, and is in the neighbor table
    afterwards, if and only if the prefix is a host prefix; for a shorter
    prefix no neighbor request is made and the neighbor table is
    unchanged.  A host prefix is an IPv4 /32 or an IPv6 /128. *)
Theorem proxy_neighbor_iff_host_prefix
  (prefixStr srcStr : string) (segmentsStr : list string)
  (prefix : Netlink.IPNet) (segments : list Z) (vpc att : string)
  (host : Netlink.Link) (w : World) :
  parsed prefixStr srcStr segmentsStr prefix segments vpc att ->
  Netlink.LinkByName (kernel w) (GenerateInterfaceNameHost vpc att)
  = OK host ->
  let entry :=
    Netlink.mkNeigh (Netlink.Index host) (Netlink.IP prefix)
                    Netlink.NUD_PERMANENT Netlink.NTF_PROXY in
  (exists err w' evs,
      srv6.RouteEgressAdd prefixStr srcStr segmentsStr w = Done err w'
      /\ trace w' = trace w ++ evs
      /\ (In (EvNeighAdd entry) evs <-> util.IsHost prefix = true)
      /\ (util.IsHost prefix = true ->
          In entry (Netlink.neighs (kernel w')))
      /\ (util.IsHost prefix = false ->
          Netlink.neighs (kernel w') = Netlink.neighs (kernel w)
          /\ forall n, ~ In (EvNeighAdd n) evs))
  /\ (Netlink.bits prefix = 32 \/ Netlink.bits prefix = 128 ->
      (util.IsHost prefix = true <->
       (Netlink.bits prefix = 32 /\ Netlink.ones prefix = 32)
       \/ (Netlink.bits prefix = 128 /\ Netlink.ones prefix = 128))).
Proof.
  intros Hparsed Hhost entry. split.
  - rewrite (RouteEgressAdd_parsed _ _ _ _ _ _ _ _ Hparsed).
    destruct (util.IsHost prefix) eqn:Hh; unfold bind, ret.
    + rewrite (neighborproxy_Add_found _ _ _ _ _ Hhost). cbv beta iota.
      fold entry.
      match goal with
      | |- context [routeegress.Add _ _ _ _ ?w1] =>
          destruct (routeegress_Add_frame vpc att prefix segments w1)
            as (e2 & w2 & evs & E2 & Hn & Ht & Hno)
      end.
      rewrite E2. cbn in Hn, Ht.
      exists (errors_Join (collect [] "routeegress add failed" e2)), w2,
        (EvNeighAdd (proxy_entry host prefix) :: evs).
      split; [reflexivity|]. split.
      { rewrite Ht, <- app_assoc. reflexivity. }
      split; [split; [reflexivity | intros _; left; reflexivity]|].
      split; [intros _; rewrite Hn; left; reflexivity | discriminate].
    + destruct (routeegress_Add_frame vpc att prefix segments w)
        as (e2 & w2 & evs & E2 & Hn & Ht & Hno).
      rewrite E2. cbv beta iota.
      exists (errors_Join (collect [] "routeegress add failed" e2)), w2, evs.
      split; [reflexivity|]. split; [exact Ht|].
      split; [split; [intros H; destruct (Hno _ H) | discriminate]|].
      split; [discriminate | intros _; split; assumption].
  - intros Hbits. rewrite IsHost_iff. lia.
Qed.

(** Whatever the texts and the devices, [RouteEgressAdd] asks the kernel
    for a neighbor entry only when the prefix parses to a host prefix. *)
Lemma neighbor_request_only_for_host_prefix
  (prefixStr srcStr : string) (segmentsStr : list string) (w : World) :
  exists err w' evs,
    srv6.RouteEgressAdd prefixStr srcStr segmentsStr w = Done err w'
    /\ trace w' = trace w ++ evs
    /\ forall n, In (EvNeighAdd n) evs ->
                 exists prefix,
                   ParseIPNet prefixStr = OK prefix
                   /\ util.IsHost prefix = true.
Proof.
  assert (Hfail : forall e,
             srv6.RouteEgressAdd prefixStr srcStr segmentsStr w
             = Done (Some e) w ->
             exists err w' evs,
               srv6.RouteEgressAdd prefixStr srcStr segmentsStr w
               = Done err w'
               /\ trace w' = trace w ++ evs
               /\ forall n, In (EvNeighAdd n) evs ->
                            exists prefix,
                              ParseIPNet prefixStr = OK prefix
                              /\ util.IsHost prefix = true).
  { intros e E. exists (Some e), w, []. rewrite app_nil_r.
    repeat split; [exact E | intros n []]. }
  destruct (ParseIPNet prefixStr) as [prefix|e] eqn:Hp.
  2: { eapply Hfail. unfold srv6.RouteEgressAdd, try_wrap.
       rewrite Hp. reflexivity. }
  destruct (ParseIP srcStr) as [src|e] eqn:Hsrc.
  2: { eapply Hfail. unfold srv6.RouteEgressAdd, try_wrap.
       rewrite Hp, Hsrc. reflexivity. }
  destruct (ParseSegments segmentsStr) as [segments|e] eqn:Hs.
  2: { eapply Hfail. unfold srv6.RouteEgressAdd, try_wrap.
       rewrite Hp, Hsrc, Hs. reflexivity. }
  destruct (HexToBase62 (fst (Codec.Decode src))) as [vpc|e] eqn:Hv.
  2: { eapply Hfail.
       unfold srv6.RouteEgressAdd, try_wrap, util.DecodeSRv6Endpoint.
       rewrite Hp, Hsrc, Hs, Hv. reflexivity. }
  destruct (HexToBase62 (snd (Codec.Decode src))) as [att|e] eqn:Ha.
  2: { eapply Hfail.
       unfold srv6.RouteEgressAdd, try_wrap, util.DecodeSRv6Endpoint.
       rewrite Hp, Hsrc, Hs, Hv, Ha. reflexivity. }
  clear Hfail.
  assert (Hparsed : parsed prefixStr srcStr segmentsStr prefix segments
                           vpc att).
  { split; [exact Hp|]. split; [exact Hs|]. exists src. auto. }
  rewrite (RouteEgressAdd_parsed _ _ _ _ _ _ _ _ Hparsed).
  unfold bind, ret. destruct (util.IsHost prefix) eqn:Hh.
  - destruct (quiet_neighborproxy_Add prefix vpc att w)
      as (e1 & w1 & E1 & _ & _ & evs1 & Ht1).
    destruct (quiet_routeegress_Add vpc att prefix segments w1)
      as (e2 & w2 & E2 & _ & _ & evs2 & Ht2).
    rewrite E1. cbv beta iota. rewrite E2.
    eexists _, w2, (evs1 ++ evs2). split; [reflexivity|]. split.
    + now rewrite Ht2, Ht1, app_assoc.
    + intros n _. exists prefix. split; [reflexivity | exact Hh].
  - destruct (routeegress_Add_frame vpc att prefix segments w)
      as (e2 & w2 & evs & E2 & _ & Ht & Hno).
    rewrite E2. eexists _, w2, evs. split; [reflexivity|].
    split; [exact Ht|]. intros n Hn. destruct (Hno n Hn).
Qed.

End WithImports.

(** The host device is there, the agent's loopback is not: the neighbor
    entry is installed, the route is not, and the caller is told. *)
Example partial_failure_is_reported :
  let k := Netlink.mkKernel [Netlink.mkLink "G000000001001H" 7 None] [] [] in
  let o := @srv6.RouteEgressAdd Lab.imports "192.168.2.5/32" "fc00::1:1"
             ["fc00:0:3::"] (Lab.running k) in
  returned o
  = Some (Some (Joined [Wrapped "routeegress add failed"
                          (LinkNotFoundError "lo-galactic")]))
  /\ Netlink.neighs (kernel (world_of o))
     = [Netlink.mkNeigh 7 (65535 * 2 ^ 32 + 3232236037) 128 8].
Proof. vm_compute. split; reflexivity. Qed.

(** The route message of scenario 4, as [test-mqtt-route.go] writes it. *)
Example route_message_roundtrip :
  let e := Envelope_Route "192.168.2.0/24" "fc00::1:1" ["fc00:0:3::"]
                          Route_ADD in
  exists payload,
    Lab.lab_Marshal e = OK payload /\ Lab.lab_Unmarshal payload = OK e.
Proof. eexists. split; vm_compute; reflexivity. Qed.

(** Scenario 4: a [Route] message with status ADD for [192.168.2.0/24]
    installs, in table 100, a route through the loopback of the agent
    with H.Encaps and the segment list, and no neighbor entry.
    Scenario 5: for [192.168.2.5/32] the permanent proxy neighbor is
    installed on the host device as well. *)
Example route_add_scenarios :
  let segments := [64512 * 2 ^ 112 + 3 * 2 ^ 80] in
  let run network :=
    match Lab.lab_Marshal
            (Envelope_Route network "fc00::1:1" ["fc00:0:3::"] Route_ADD)
    with
    | OK payload =>
        Some (kernel (world_of (@agent.ReceiveHandler Lab.imports payload
                                  (Lab.running Lab.host))))
    | Err _ => None
    end in
  option_map Netlink.routes (run "192.168.2.0/24")
  = Some [Netlink.mkRoute
            (Netlink.mkIPNet (65535 * 2 ^ 32 + 3232236032) 24 32) 100 9
            (Some (Netlink.EncapSEG6 (Netlink.mkSEG6Encap 1 segments)))]
  /\ option_map Netlink.neighs (run "192.168.2.0/24") = Some []
  /\ option_map Netlink.routes (run "192.168.2.5/32")
     = Some [Netlink.mkRoute host_prefix 100 9
               (Some (Netlink.EncapSEG6 (Netlink.mkSEG6Encap 1 segments)))]
  /\ option_map Netlink.neighs (run "192.168.2.5/32")
     = Some [Netlink.mkNeigh 7 (Netlink.IP host_prefix) 128 8].
Proof. vm_compute. repeat split. Qed.

Lemma lab_parsed :
  @parsed Lab.imports "192.168.2.5/32" "fc00::1:1" ["fc00:0:3::"]
          host_prefix [64512 * 2 ^ 112 + 3 * 2 ^ 80] "000000001" "001".
Proof.
  split; [reflexivity|]. split; [reflexivity|].
  exists endpoint_1_1. repeat split; reflexivity.
Defined.

(** The host prefix [192.168.2.5/32] on a host without its host device:
    the neighbor operation fails, the route operation still runs. *)
Lemma egress_errors_are_joined_witness :
  let w := Lab.running
             (Netlink.mkKernel
                [Netlink.mkLink "G000000001001V" 8 (Some 100);
                 Netlink.mkLink "lo-galactic" 9 None] [] []) in
  let segments := [64512 * 2 ^ 112 + 3 * 2 ^ 80] in
  (exists e1 w1 e2 w2,
      @neighborproxy.Add Lab.imports host_prefix "000000001" "001" w
      = Done e1 w1
      /\ @routeegress.Add Lab.imports "000000001" "001" host_prefix
           segments w1 = Done e2 w2
      /\ @srv6.RouteEgressAdd Lab.imports "192.168.2.5/32" "fc00::1:1"
           ["fc00:0:3::"] w
         = Done (union "neighborproxy add failed" e1
                       "routeegress add failed" e2) w2)
  /\ (exists e1 w1 e2 w2,
         @neighborproxy.Delete Lab.imports host_prefix "000000001" "001" w
         = Done e1 w1
         /\ @routeegress.Delete Lab.imports "000000001" "001" host_prefix
              segments w1 = Done e2 w2
         /\ @srv6.RouteEgressDel Lab.imports "192.168.2.5/32" "fc00::1:1"
              ["fc00:0:3::"] w
            = Done (union "neighborproxy delete failed" e1
                          "routeegress delete failed" e2) w2)
  /\ (forall m1 e1 m2 e2,
         (union m1 e1 m2 e2 = None <-> e1 = None /\ e2 = None)
         /\ (forall x, e1 = Some x ->
                       exists j, union m1 e1 m2 e2 = Some j /\ Contains x j)
         /\ (forall x, e2 = Some x ->
                       exists j, union m1 e1 m2 e2 = Some j /\ Contains x j)).
Proof.
  intros w segments.
  apply (@egress_errors_are_joined Lab.imports "192.168.2.5/32" "fc00::1:1"
           ["fc00:0:3::"] host_prefix segments "000000001" "001" w).
  - exact lab_parsed.
  - reflexivity.
Defined.

(** Scenario 5: the host prefix [192.168.2.5/32] on the lab host. *)
Lemma proxy_neighbor_iff_host_prefix_witness :
  let w := Lab.running Lab.host in
  let entry := Netlink.mkNeigh 7 (Netlink.IP host_prefix)
                               Netlink.NUD_PERMANENT Netlink.NTF_PROXY in
  (exists err w' evs,
      @srv6.RouteEgressAdd Lab.imports "192.168.2.5/32" "fc00::1:1"
        ["fc00:0:3::"] w = Done err w'
      /\ trace w' = trace w ++ evs
      /\ (In (EvNeighAdd entry) evs <-> util.IsHost host_prefix = true)
      /\ (util.IsHost host_prefix = true ->
          In entry (Netlink.neighs (kernel w')))
      /\ (util.IsHost host_prefix = false ->
          Netlink.neighs (kernel w') = Netlink.neighs (kernel w)
          /\ forall n, ~ In (EvNeighAdd n) evs))
  /\ (Netlink.bits host_prefix = 32 \/ Netlink.bits host_prefix = 128 ->
      (util.IsHost host_prefix = true <->
       (Netlink.bits host_prefix = 32 /\ Netlink.ones host_prefix = 32)
       \/ (Netlink.bits host_prefix = 128
           /\ Netlink.ones host_prefix = 128))).
Proof.
  intros w entry.
  apply (@proxy_neighbor_iff_host_prefix Lab.imports "192.168.2.5/32"
           "fc00::1:1" ["fc00:0:3::"] host_prefix
           [64512 * 2 ^ 112 + 3 * 2 ^ 80] "000000001" "001"
           (Netlink.mkLink "G000000001001H" 7 None) w).
  - exact lab_parsed.
  - reflexivity.
Defined.

End EgressFacts.

(** * Properties of the handlers of [main.go] *)

Module AgentFacts.
Import Specs.
Import KernelFacts.
Local Open Scope list_scope.

Section WithImports.
Context {imports : Imports}.

Lemma IPNet_eqb_refl (a : Netlink.IPNet) : Netlink.IPNet_eqb a a = true.
Proof. unfold Netlink.IPNet_eqb. now rewrite !Z.eqb_refl. Qed.

Lemma same_route_refl (r : Netlink.Route) : Netlink.same_route r r = true.
Proof.
  unfold Netlink.same_route. now rewrite Z.eqb_refl, IPNet_eqb_refl.
Qed.

(** [RouteIngressAdd] either fails and leaves the world as it was, or
    issues one replace request for the ingress route of the endpoint,
    after which the kernel holds that route. *)
Lemma RouteIngressAdd_cases (ep : string) (w : World) :
  (exists e, srv6.RouteIngressAdd ep w = Done (Some e) w)
  \/ (exists route w',
         srv6.RouteIngressAdd ep w = Done None w'
         /\ is_ingress_route ep route
         /\ Netlink.has_route (kernel w') route = true
         /\ r_client w' = r_client w
         /\ trace w' = trace w ++ [EvRouteReplace route]).
Proof.
  unfold srv6.RouteIngressAdd, try_wrap, util.DecodeSRv6Endpoint.
  destruct (ParseIP ep) as [ip|e] eqn:Hip; [|left; eexists; reflexivity].
  destruct (HexToBase62 (fst (Codec.Decode ip))) as [vpc|e];
    [|left; eexists; reflexivity].
  destruct (HexToBase62 (snd (Codec.Decode ip))) as [att|e];
    [|left; eexists; reflexivity].
  unfold routeingress.Add, bind. rewrite LinkByName_run.
  destruct (Netlink.LinkByName _ _) as [host|e];
    [|left; eexists; reflexivity].
  destruct (GetVRFIdForVPC_pure vpc att w) as [[t|e] ->];
    [|left; eexists; reflexivity].
  right.
  exists (Netlink.mkRoute
            (Netlink.NewIPNet ip) 0 (Netlink.Index host)
            (Some (Netlink.EncapSEG6Local
                     (Netlink.mkSEG6LocalEncap
                        (Netlink.set_flag Netlink.SEG6_LOCAL_VRFTABLE
                           (Netlink.set_flag Netlink.SEG6_LOCAL_ACTION
                              (repeat false Netlink.SEG6_LOCAL_MAX)))
                        Netlink.SEG6_LOCAL_ACTION_END_DT46 t)))).
  eexists. split; [reflexivity|]. split.
  { exists ip. eexists. repeat split; auto. }
  split; [|split; reflexivity].
  cbn -[Netlink.same_route]. now rewrite same_route_refl.
Qed.

Lemma handed_nil cfg mk ep w w' :
  kernel w' = kernel w -> r_client w' = r_client w -> trace w' = trace w ->
  handed cfg mk ep w w' [].
Proof.
  intros Hk Hc Ht. repeat split; try assumption.
  exists []. rewrite app_nil_r. split; [assumption | constructor].
Qed.

Lemma handed_cons cfg mk ep w w1 w' n ns payload :
  Marshal (mk n ep) = OK payload ->
  kernel w1 = kernel w -> r_client w1 = r_client w ->
  trace w1 = trace w ++ [EvPublish (agent.mqtt_topic_send cfg)
                                   (agent.mqtt_qos cfg mod 256) false
                                   payload] ->
  handed cfg mk ep w1 w' ns ->
  handed cfg mk ep w w' (n :: ns).
Proof.
  intros Hm Hk Hc Ht (Hk' & Hc' & pubs & Ht' & Hall).
  repeat split; try congruence.
  eexists (_ :: pubs). split.
  - rewrite Ht', Ht, <- app_assoc. reflexivity.
  - constructor; [exists payload; split; [assumption | reflexivity]
                 | assumption].
Qed.

(** The induction step shared by the two loops. *)
Lemma loop_step cfg mk ep n ns w w2 payload
  (o : Outcome (option error)) :
  Marshal (mk n ep) = OK payload ->
  kernel w2 = kernel w -> r_client w2 = r_client w ->
  trace w2 = trace w ++ [EvPublish (agent.mqtt_topic_send cfg)
                                   (agent.mqtt_qos cfg mod 256) false
                                   payload] ->
  loop_spec cfg mk ep ns w2 o ->
  loop_spec cfg mk ep (n :: ns) w o.
Proof.
  intros Hm Hk Hc Ht Hspec. destruct o as [[e|] w' | msg w']; cbn in *.
  - destruct Hspec as (sent & n' & rest & -> & He & Hh).
    exists (n :: sent), n', rest.
    split; [reflexivity|]. split; [assumption|].
    eapply handed_cons; eassumption.
  - eapply handed_cons; eassumption.
  - destruct Hspec as (Hnil & sent & n' & rest & -> & Hh).
    split; [congruence|].
    exists (n :: sent), n', rest. split; [reflexivity|].
    eapply handed_cons; eassumption.
Qed.

Ltac loop_tac IH :=
  let Hm := fresh "Hm" in
  let Hc := fresh "Hc" in
  unfold bind, Printf, remote.Send, ret; cbn;
  match goal with
  | |- context [Marshal ?env] => destruct (Marshal env) eqn:Hm
  end;
  [ match goal with
    | |- context [r_client ?w] => destruct (r_client w) eqn:Hc
    end; cbn in Hc;
    [ eapply loop_step;
      [exact Hm | | | | apply IH]; cbn;
      first [reflexivity | congruence]
    | cbn; split; [assumption|];
      eexists [], _, _; split; [reflexivity|];
      apply handed_nil; reflexivity ]
  | cbn; eexists [], _, _; split; [reflexivity|];
    split; [exact Hm|]; apply handed_nil; reflexivity ].

Lemma register_each_spec cfg ep ns :
  forall w,
    loop_spec cfg Envelope_Register ep ns w (agent.register_each cfg ep ns w).
Proof.
  induction ns as [|n ns IH]; intros w.
  - cbn. apply handed_nil; reflexivity.
  - cbn [agent.register_each]. loop_tac IH.
Qed.

Lemma deregister_each_spec cfg ep ns :
  forall w,
    loop_spec cfg Envelope_Deregister ep ns w
              (agent.deregister_each cfg ep ns w).
Proof.
  induction ns as [|n ns IH]; intros w.
  - cbn. apply handed_nil; reflexivity.
  - cbn [agent.deregister_each]. loop_tac IH.
Qed.



Lemma handed_marshals cfg mk ep w w' ns :
  handed cfg mk ep w w' ns ->
  Forall (fun n => exists payload, Marshal (mk n ep) = OK payload) ns.
Proof.
  intros (_ & _ & pubs & _ & Hall).
  induction Hall as [|n ev ns pubs (payload & Hm & _) _ IH]; constructor;
    [exists payload; exact Hm | exact IH].
Qed.

(** A handler returns nil exactly when every step went well; it returns
    an error when a step failed; it panics only without a client. *)
Lemma handler_dichotomy cfg mk kernel_op
  (loop : string -> list string -> M (option error)) vpc att ns w :
  (forall ep, quiet (kernel_op ep)) ->
  (forall ep w1, loop_spec cfg mk ep ns w1 (loop ep ns w1)) ->
  match
    (match util.EncodeSRv6Endpoint (agent.srv6_net cfg) vpc att with
     | Err e => ret (Some e)
     | OK ep =>
         err <- kernel_op ep ;;
         match err with
         | Some e => ret (Some e)
         | None => loop ep ns
         end
     end) w
  with
  | Done None _ => steps_ok cfg mk kernel_op vpc att ns w
  | Done (Some _) _ => ~ steps_ok cfg mk kernel_op vpc att ns w
  | Panic _ _ => r_client w = None
  end.
Proof.
  intros Hq Hloop.
  destruct (util.EncodeSRv6Endpoint _ _ _) as [ep|e] eqn:He.
  2: { cbn. intros (ep & Hep & _). congruence. }
  unfold bind. destruct (Hq ep w) as (r & w1 & E & Hc & _). rewrite E.
  destruct r as [e|]; cbn.
  { intros (ep' & Hep & Hret & _). rewrite He in Hep.
    injection Hep as <-. rewrite E in Hret. discriminate Hret. }
  specialize (Hloop ep w1).
  destruct (loop ep ns w1) as [[e|] w' | msg w']; cbn in Hloop.
  - destruct Hloop as (sent & n & rest & -> & Hm & _).
    intros (ep' & Hep & _ & Hall). rewrite He in Hep. injection Hep as <-.
    apply Forall_app in Hall as [_ Hall].
    apply Forall_inv in Hall as [payload Hp]. congruence.
  - exists ep. split; [exact He|]. split; [now rewrite E|].
    eapply handed_marshals; eassumption.
  - destruct Hloop as [Hnil _]. congruence.
Qed.

(** C4, as the code has it.  A [Register] or [Deregister] request yields
    a reply message only when every step went well, and that reply has
    confirmed = true; when a step (encode, kernel install or removal,
    marshalling) fails, the service returns a nil reply and hands the
    error to the RPC framework as the error of the call.  No reply with
    confirmed = false is ever made.  (Without a stored client the handler
    panics in [Send].) *)
Theorem failure_goes_to_error_channel (cfg : agent.Config) (w : World) :
  (forall req,
      match local.Register (agent.l cfg) req w with
      | Done (reply, err) _ =>
          (reply = Some (local.mkRegisterReply true) /\ err = None
           /\ steps_ok cfg Envelope_Register srv6.RouteIngressAdd
                (local.Vpc req) (local.Vpcattachment req)
                (local.Networks req) w)
          \/ (reply = None /\ err <> None
              /\ ~ steps_ok cfg Envelope_Register srv6.RouteIngressAdd
                     (local.Vpc req) (local.Vpcattachment req)
                     (local.Networks req) w)
      | Panic _ _ => r_client w = None
      end)
  /\ (forall req,
         match local.Deregister (agent.l cfg) req w with
         | Done (reply, err) _ =>
             (reply = Some (local.mkDeregisterReply true) /\ err = None
              /\ steps_ok cfg Envelope_Deregister srv6.RouteIngressDel
                   (local.DVpc req) (local.DVpcattachment req)
                   (local.DNetworks req) w)
             \/ (reply = None /\ err <> None
                 /\ ~ steps_ok cfg Envelope_Deregister srv6.RouteIngressDel
                        (local.DVpc req) (local.DVpcattachment req)
                        (local.DNetworks req) w)
         | Panic _ _ => r_client w = None
         end).
Proof.
  split; intros req.
  - assert (H : match agent.RegisterHandler cfg (local.Vpc req)
                        (local.Vpcattachment req) (local.Networks req) w with
                | Done None _ =>
                    steps_ok cfg Envelope_Register srv6.RouteIngressAdd
                      (local.Vpc req) (local.Vpcattachment req)
                      (local.Networks req) w
                | Done (Some _) _ =>
                    ~ steps_ok cfg Envelope_Register srv6.RouteIngressAdd
                        (local.Vpc req) (local.Vpcattachment req)
                        (local.Networks req) w
                | Panic _ _ => r_client w = None
                end).
    { exact (handler_dichotomy cfg Envelope_Register srv6.RouteIngressAdd
               (agent.register_each cfg)
               (local.Vpc req) (local.Vpcattachment req)
               (local.Networks req) w quiet_RouteIngressAdd
               (fun ep w1 => register_each_spec cfg ep _ w1)). }
    unfold local.Register, agent.l; cbn [local.RegisterHandler].
    unfold bind.
    destruct (agent.RegisterHandler cfg _ _ _ w) as [[e|] w' | msg w'];
      cbn.
    + right. repeat split; [discriminate | exact H].
    + left. repeat split. exact H.
    + exact H.
  - assert (H : match agent.DeregisterHandler cfg (local.DVpc req)
                        (local.DVpcattachment req) (local.DNetworks req) w
                with
                | Done None _ =>
                    steps_ok cfg Envelope_Deregister srv6.RouteIngressDel
                      (local.DVpc req) (local.DVpcattachment req)
                      (local.DNetworks req) w
                | Done (Some _) _ =>
                    ~ steps_ok cfg Envelope_Deregister srv6.RouteIngressDel
                        (local.DVpc req) (local.DVpcattachment req)
                        (local.DNetworks req) w
                | Panic _ _ => r_client w = None
                end).
    { exact (handler_dichotomy cfg Envelope_Deregister srv6.RouteIngressDel
               (agent.deregister_each cfg)
               (local.DVpc req) (local.DVpcattachment req)
               (local.DNetworks req) w quiet_RouteIngressDel
               (fun ep w1 => deregister_each_spec cfg ep _ w1)). }
    unfold local.Deregister, agent.l; cbn [local.DeregisterHandler].
    unfold bind.
    destruct (agent.DeregisterHandler cfg _ _ _ w) as [[e|] w' | msg w'];
      cbn.
    + right. repeat split; [discriminate | exact H].
    + left. repeat split. exact H.
    + exact H.
Qed.

(** C10.  While [Remote.Run] has not stored a client ([r.client] is
    nil), [Send] panics instead of returning; a [Register] request with
    at least one network, served in that state, installs its ingress
    route and then panics at the first [Send].  Once [Run] has stored the
    client, [Send] returns. *)
Theorem Send_before_Run_panics (cfg : agent.Config) (r : remote.Remote)
  (payload vpc att n : string) (ns : list string) (w : World) :
  r_client w = None ->
  (exists msg, remote.Send r payload w = Panic msg w)
  /\ (forall ep p,
         util.EncodeSRv6Endpoint (agent.srv6_net cfg) vpc att = OK ep ->
         returned (srv6.RouteIngressAdd ep w) = Some None ->
         Marshal (Envelope_Register n ep) = OK p ->
         returned (agent.RegisterHandler cfg vpc att (n :: ns) w) = None)
  /\ (exists w',
         (remote.store_client (remote.Run_options r) ;;; remote.Send r payload) w = Done tt w').
Proof.
  intros Hnil. split; [|split].
  - unfold remote.Send. rewrite Hnil. eexists; reflexivity.
  - intros ep p He Hin Hm. unfold agent.RegisterHandler. rewrite He.
    unfold bind.
    destruct (RouteIngressAdd_cases ep w)
      as [[e E] | (route & w1 & E & _ & _ & Hc & _)];
      rewrite E in *; [discriminate Hin|].
    cbn [agent.register_each]. unfold bind, Printf. rewrite Hm.
    unfold remote.Send. cbn. rewrite Hc, Hnil. reflexivity.
  - eexists. reflexivity.
Qed.

End WithImports.

(** The lab agent before [Run] has stored its client. *)
Lemma Send_before_Run_panics_witness :
  let w := Lab.booting Lab.host in
  let cfg := agent.defaults in
  (exists msg,
      remote.Send (@agent.r Lab.imports cfg) "payload" w = Panic msg w)
  /\ (forall ep p,
         @util.EncodeSRv6Endpoint Lab.imports (agent.srv6_net cfg) "1" "1"
         = OK ep ->
         returned (@srv6.RouteIngressAdd Lab.imports ep w) = Some None ->
         @Marshal Lab.imports (Envelope_Register "10.1.1.0/24" ep) = OK p ->
         returned (@agent.RegisterHandler Lab.imports cfg "1" "1"
                     ("10.1.1.0/24" :: []) w) = None)
  /\ (exists w',
         (remote.store_client
            (remote.Run_options (@agent.r Lab.imports cfg)) ;;;
          remote.Send (@agent.r Lab.imports cfg) "payload") w = Done tt w').
Proof.
  intros w cfg.
  apply (@Send_before_Run_panics Lab.imports cfg (@agent.r Lab.imports cfg)
           "payload" "1" "1" "10.1.1.0/24" [] w).
  reflexivity.
Defined.

(** A [Register] served before the broker connection is set up: the
    ingress route is installed, then the handler panics. *)
Example register_before_Run :
  let o := local.Register
             (@agent.l Lab.imports agent.defaults)
             (local.mkRegisterRequest "1" "1" ["10.1.1.0/24"])
             (Lab.booting Lab.host) in
  returned o = None
  /\ List.length (Netlink.routes (kernel (world_of o))) = 1%nat
  /\ List.length (trace (world_of o)) = 1%nat.
Proof. vm_compute. repeat split. Qed.

(** Scenario 3: [Register{vpc:"1", attachment:"1",
    networks:["10.1.1.0/24"]}] on the lab host with a connected client:
    one ingress route to [fc00::1:1/128] on the host device with End.DT46
    into table 100, then one publish on the send topic. *)
Example register_scenario :
  let o := local.Register
             (@agent.l Lab.imports agent.defaults)
             (local.mkRegisterRequest "1" "1" ["10.1.1.0/24"])
             (Lab.running Lab.host) in
  returned o = Some (Some (local.mkRegisterReply true), None)
  /\ exists payload,
       @Marshal Lab.imports (Envelope_Register "10.1.1.0/24" "fc00::1:1")
       = OK payload
       /\ trace (world_of o)
          = [EvRouteReplace
               (Netlink.mkRoute
                  (Netlink.mkIPNet endpoint_1_1 128 128) 0 7
                  (Some (Netlink.EncapSEG6Local
                           (Netlink.mkSEG6LocalEncap
                              [false; true; false; false; false; false;
                               false; false; false; true] 16 100))));
             EvPublish "galactic/default/send" 1 false payload].
Proof.
  split; [vm_compute; reflexivity|]. eexists. split; vm_compute; reflexivity.
Qed.

(** C4 as stated fails: a request whose VPC is not hex, and a request on
    a host without the host device, get no reply message at all (nil),
    and the error is returned to the RPC framework. *)
Lemma failure_has_no_reply :
  returned (local.Register
              (@agent.l Lab.imports agent.defaults)
              (local.mkRegisterRequest "zz" "1" ["10.1.1.0/24"])
              (Lab.running Lab.host))
  = Some (None, Some (ErrText "invalid identifier"))
  /\ returned (local.Register
                 (@agent.l Lab.imports agent.defaults)
                 (local.mkRegisterRequest "1" "1" ["10.1.1.0/24"])
                 (Lab.running Lab.bare))
     = Some (None,
             Some (Wrapped "routeingress add failed"
                     (LinkNotFoundError "G000000001001H")))
  /\ returned (local.Deregister
                 (@agent.l Lab.imports agent.defaults)
                 (local.mkDeregisterRequest "1" "1" ["10.1.1.0/24"])
                 (Lab.running Lab.bare))
     = Some (None,
             Some (Wrapped "routeingress delete failed"
                     (LinkNotFoundError "G000000001001H"))).
Proof. vm_compute. repeat split. Qed.

End AgentFacts.

(** * Properties of the orchestration of [main.go] *)

Module MainFacts.
Import Specs.
Import mqtt.
Local Open Scope list_scope.

Lemma Serve_failed l env w :
  serve_fails env = true ->
  exists e, local.Serve l env w = Done (Returned (Some e)) w.
Proof.
  unfold serve_fails, local.Serve. intros H.
  destruct (negb (is_nil (local.RemoveErr env))
            && negb (local.RemoveIsNotExist env)) eqn:Hr.
  - destruct (local.RemoveErr env) as [e|]; [|discriminate Hr].
    exists e. reflexivity.
  - cbn in H. rewrite H.
    destruct (local.ListenErr env) as [e|]; [|discriminate H].
    exists e. reflexivity.
Qed.

Lemma Serve_listening l env w :
  serve_fails env = false ->
  local.Serve l env w
  = Done (AwaitDone (local_shutdown env))
         (mkWorld (kernel w) (r_client w) (trace w)
                  (logs w ++ [("gRPC listening: unix://%s",
                               [LStr (local.SocketPath l)])])).
Proof.
  unfold serve_fails, local.Serve. intros H.
  apply orb_false_iff in H as [-> ->]. reflexivity.
Qed.

Lemma Run_failed r conn subs w :
  connect_fails conn = true ->
  exists e w',
    remote.Run r conn subs w = Done (Returned (Some e)) w'
    /\ trace w' = trace w ++ [EvConnect].
Proof.
  unfold connect_fails. intros H.
  destruct (mqtt.TokError conn) as [e|] eqn:He; [|discriminate H].
  exists e. eexists. unfold remote.Run, remote.store_client, remote.Connect,
    Printf, bind. cbn. rewrite He. cbn. split; reflexivity.
Qed.

Lemma Run_connected r conn subs w :
  connect_fails conn = false ->
  exists w' c,
    remote.Run r conn subs w = Done (AwaitDone remote_shutdown) w'
    /\ r_client w' = Some c /\ connected c = true.
Proof.
  unfold connect_fails. intros H.
  destruct (mqtt.TokError conn) as [e|] eqn:He; [discriminate H|].
  unfold remote.Run, remote.store_client, remote.Connect, Printf.
  unfold bind at 1 2 3. cbn. rewrite He. cbn. unfold bind at 1.
  match goal with
  | |- context [remote.each_connect r subs ?w1] =>
      edestruct (RemoteFacts.each_connect_keeps r subs w1)
        as (w' & c' & E & Hc' & Hconn & _);
      [reflexivity|]
  end.
  rewrite E. exists w', c'. repeat split; assumption.
Qed.

Lemma remote_shutdown_run w c :
  r_client w = Some c -> connected c = true ->
  remote_shutdown w
  = Done None (mkWorld (kernel w)
                       (Some (mqtt.mkClient false (mqtt.subscribed c)
                                            (mqtt.options c)))
                       (trace w ++ [EvDisconnect 250])
                       (logs w ++ [("MQTT disconnected", [])])).
Proof.
  intros Hc Hconn.
  unfold remote_shutdown, remote.disconnect_if_connected, Printf, bind.
  rewrite Hc, Hconn. reflexivity.
Qed.

Lemma bind_Done {A B : Type} (m : M A) (f : A -> M B) w a w1 :
  m w = Done a w1 -> bind m f w = f a w1.
Proof. intros E. unfold bind. now rewrite E. Qed.

Section WithImports.
Context {imports : Imports}.

(** C5, as the code has it.  With a valid [srv6_net] and command line,
    the process exits with status 0 as soon as a signal comes or a
    top-level task returns an error by itself, and keeps running
    otherwise: a task error is logged ([Error: ...]) and the shutdown is
    the normal one.  The error of one task cancels the sibling: when
    [Serve] fails the connected remote client disconnects, when the
    connect of [Remote.Run] fails the listening service stops. *)
Theorem exit_status_is_zero (cfg : agent.Config) (env : local.ServeEnv)
  (conn : mqtt.Token) (subs : list mqtt.Token) (signal : bool)
  (w : World) (ep : string) :
  util.EncodeSRv6Endpoint (agent.srv6_net cfg) "ffffffffffff" "ffff"
  = OK ep ->
  let failed := serve_fails env || connect_fails conn in
  let o := agent.main cfg None env conn subs signal w in
  (signal || failed = true -> returned o = Some (Some 0))
  /\ (signal || failed = false -> returned o = Some None)
  /\ (failed = true ->
      exists e, In ("Error: %v", [LErr (Some e)]) (logs (world_of o)))
  /\ (serve_fails env = true -> connect_fails conn = false ->
      In (EvDisconnect 250) (trace (world_of o)))
  /\ (serve_fails env = false -> connect_fails conn = true ->
      In ("gRPC stopped", []) (logs (world_of o))).
Proof.
  intros He failed o. subst failed o.
  unfold agent.main, agent.Run. rewrite He. unfold bind. cbv beta iota.
  destruct (serve_fails env) eqn:Hs; destruct (connect_fails conn) eqn:Hr.
  - destruct (Serve_failed (agent.l cfg) env w Hs) as [e1 E1].
    destruct (Run_failed (agent.r cfg) conn subs w Hr) as (e2 & w2 & E2 & _).
    rewrite E1. cbv beta iota. rewrite E2. cbn. rewrite orb_true_r. cbn.
    repeat split; try discriminate; try reflexivity.
    intros _. exists e1. rewrite !in_app_iff. cbn. auto.
  - destruct (Serve_failed (agent.l cfg) env w Hs) as [e1 E1].
    destruct (Run_connected (agent.r cfg) conn subs w Hr)
      as (w2 & c & E2 & Hc & Hconn).
    rewrite E1. cbv beta iota. rewrite E2. cbn -[remote_shutdown].
    rewrite orb_true_r. cbn -[remote_shutdown].
    rewrite (bind_Done _ _ _ _ _ (remote_shutdown_run w2 c Hc Hconn)). cbn.
    repeat split; try discriminate; try reflexivity.
    + intros _. exists e1. rewrite !in_app_iff. cbn. auto.
    + intros _ _. rewrite in_app_iff. cbn. auto.
  - rewrite (Serve_listening (agent.l cfg) env w Hs). cbv beta iota.
    match goal with
    | |- context [remote.Run _ _ _ ?w1] =>
        destruct (Run_failed (agent.r cfg) conn subs w1 Hr)
          as (e2 & w2 & E2 & _)
    end.
    rewrite E2. cbn. rewrite orb_true_r. cbn.
    destruct (local.GrpcServeErr env); cbn;
      (repeat split; try discriminate; try reflexivity;
       [intros _; exists e2; rewrite !in_app_iff; cbn; auto
       |intros _ _; rewrite !in_app_iff; cbn; auto 6]).
  - rewrite (Serve_listening (agent.l cfg) env w Hs). cbv beta iota.
    match goal with
    | |- context [remote.Run _ _ _ ?w1] =>
        destruct (Run_connected (agent.r cfg) conn subs w1 Hr)
          as (w2 & c & E2 & Hc & Hconn)
    end.
    rewrite E2. destruct signal; cbn -[remote_shutdown].
    + match goal with
      | |- context [bind remote_shutdown _ ?w3] =>
          rewrite (bind_Done _ _ _ _ _ (remote_shutdown_run w3 c Hc Hconn))
      end.
      destruct (local.GrpcServeErr env); cbn;
        repeat split; try discriminate; reflexivity.
    + repeat split; discriminate.
Qed.

End WithImports.

Lemma exit_status_is_zero_witness :
  let cfg := agent.defaults in
  let failed := serve_fails bind_failure || connect_fails granted in
  let o := @agent.main Lab.imports cfg None bind_failure granted [granted]
             false (Lab.booting Lab.host) in
  (false || failed = true -> returned o = Some (Some 0))
  /\ (false || failed = false -> returned o = Some None)
  /\ (failed = true ->
      exists e, In ("Error: %v", [LErr (Some e)]) (logs (world_of o)))
  /\ (serve_fails bind_failure = true -> connect_fails granted = false ->
      In (EvDisconnect 250) (trace (world_of o)))
  /\ (serve_fails bind_failure = false -> connect_fails granted = true ->
      In ("gRPC stopped", []) (logs (world_of o))).
Proof.
  intros cfg.
  apply (@exit_status_is_zero Lab.imports cfg bind_failure granted [granted]
           false (Lab.booting Lab.host) "fc00::ffff:ffff:ffff:ffff").
  reflexivity.
Defined.

(** C5 as stated fails: a bind failure of the local service, and a
    connect failure of the remote client, are errors returned by a
    top-level task, and the process exits with status 0. *)
Lemma task_error_exits_zero :
  returned (@agent.main Lab.imports agent.defaults None bind_failure granted
              [granted] false (Lab.booting Lab.host))
  = Some (Some 0)
  /\ returned (@agent.main Lab.imports agent.defaults None
                 (local.mkServeEnv None true None None)
                 (mqtt.mkToken true (Some (ErrText "connection refused")))
                 [] false (Lab.booting Lab.host))
     = Some (Some 0).
Proof. vm_compute. split; reflexivity. Qed.

(** The status is 1 when the base prefix is wider than /64, and when the
    command line is wrong. *)
Example fatal_startup :
  returned (@agent.main Lab.imports
              (agent.mkConfig "fc00::/72" "/var/run/galactic/agent.sock"
                              "tcp://mqtt:1883" "" "" "" 1
                              "galactic/default/receive"
                              "galactic/default/send")
              None (local.mkServeEnv None true None None) granted [granted]
              true (Lab.booting Lab.host))
  = Some (Some 1)
  /\ returned (@agent.main Lab.imports agent.defaults
                 (Some (ErrText "unknown flag")) bind_failure granted []
                 true (Lab.booting Lab.host))
     = Some (Some 1).
Proof. vm_compute. split; reflexivity. Qed.

End MainFacts.

(** * More on the kernel programmer: how its operations compose *)

Module KernelExtras.
Import Specs MoreSpecs KernelFacts EgressFacts AgentFacts.
Local Open Scope list_scope.



Lemma same_route_sym (r r' : Netlink.Route) :
  Netlink.same_route r r' = Netlink.same_route r' r.
Proof.
  unfold Netlink.same_route, Netlink.IPNet_eqb.
  rewrite (Z.eqb_sym (Netlink.table_of r)).
  rewrite (Z.eqb_sym (Netlink.IP (Netlink.Dst r))).
  rewrite (Z.eqb_sym (Netlink.ones (Netlink.Dst r))).
  rewrite (Z.eqb_sym (Netlink.bits (Netlink.Dst r))).
  reflexivity.
Qed.

Lemma same_neigh_key (n n' : Netlink.Neigh) :
  Netlink.same_neigh n n' = true ->
  forall x, Netlink.same_neigh n x = Netlink.same_neigh n' x.
Proof.
  unfold Netlink.same_neigh. intros H x.
  apply andb_true_iff in H as [H H3]. apply andb_true_iff in H as [H1 H2].
  apply Z.eqb_eq in H1, H2, H3. now rewrite H1, H2, H3.
Qed.




Lemma existsb_filtered {A : Type} (f : A -> bool) (l : list A) :
  existsb f (filter (fun x => negb (f x)) l) = false.
Proof.
  induction l as [|a l IH]; cbn; [reflexivity|].
  destruct (f a) eqn:E; cbn; [|rewrite E]; exact IH.
Qed.






Section WithImports.
Context {imports : Imports}.





(** After its parsing steps, an ingress operation is the operation of
    [routeingress] with its error wrapped. *)
Lemma RouteIngressAdd_resolved ep ip vpc att w :
  resolves ep ip vpc att ->
  srv6.RouteIngressAdd ep w
  = (err <- routeingress.Add (Netlink.NewIPNet ip) vpc att ;;
     match err with
     | Some e => ret (Some (Wrapped "routeingress add failed" e))
     | None => ret None
     end) w.
Proof.
  intros (Hip & Hv & Ha).
  unfold srv6.RouteIngressAdd, try_wrap, util.DecodeSRv6Endpoint.
  now rewrite Hip, Hv, Ha.
Qed.

Lemma RouteIngressDel_resolved ep ip vpc att w :
  resolves ep ip vpc att ->
  srv6.RouteIngressDel ep w
  = (err <- routeingress.Delete (Netlink.NewIPNet ip) vpc att ;;
     match err with
     | Some e => ret (Some (Wrapped "routeingress delete failed" e))
     | None => ret None
     end) w.
Proof.
  intros (Hip & Hv & Ha).
  unfold srv6.RouteIngressDel, try_wrap, util.DecodeSRv6Endpoint.
  now rewrite Hip, Hv, Ha.
Qed.






End WithImports.

(** On the lab host, for the endpoint [fc00::1:1]. *)
Lemma lab_resolves :
  @resolves Lab.imports "fc00::1:1" endpoint_1_1 "000000001" "001".
Proof. repeat split; reflexivity. Defined.




End KernelExtras.

(** * More on the egress operations *)

Module EgressExtras.
Import Specs MoreSpecs KernelFacts EgressFacts AgentFacts KernelExtras.
Local Open Scope list_scope.








Lemma LinkByName_links k k' name :
  Netlink.links k' = Netlink.links k ->
  Netlink.LinkByName k' name = Netlink.LinkByName k name.
Proof. unfold Netlink.LinkByName. now intros ->. Qed.


Section WithImports.
Context {imports : Imports}.








(** X5.  A missing per-attachment host device is reported, not healed:
    [RouteIngressAdd] and [RouteIngressDel] return the lookup error,
    wrapped, and leave the world exactly as it was: no link is created
    and no request reaches the kernel. *)
Theorem missing_host_device_is_reported
  (ep : string) (ip : Z) (vpc att : string) (e : error) (w : World) :
  resolves ep ip vpc att ->
  Netlink.LinkByName (kernel w) (GenerateInterfaceNameHost vpc att)
  = Err e ->
  srv6.RouteIngressAdd ep w
  = Done (Some (Wrapped "routeingress add failed" e)) w
  /\ srv6.RouteIngressDel ep w
     = Done (Some (Wrapped "routeingress delete failed" e)) w.
Proof.
  intros Hres Hmiss. split.
  - rewrite (RouteIngressAdd_resolved _ _ _ _ _ Hres).
    unfold routeingress.Add, bind. now rewrite LinkByName_run, Hmiss.
  - rewrite (RouteIngressDel_resolved _ _ _ _ _ Hres).
    unfold routeingress.Delete, bind. now rewrite LinkByName_run, Hmiss.
Qed.

(** The neighbor operations leave links and routes alone. *)
Lemma neighborproxy_frame (add : bool) ipnet vpc att w :
  exists e w',
    (if add then neighborproxy.Add ipnet vpc att w
     else neighborproxy.Delete ipnet vpc att w) = Done e w'
    /\ Netlink.links (kernel w') = Netlink.links (kernel w)
    /\ Netlink.routes (kernel w') = Netlink.routes (kernel w).
Proof.
  destruct add; unfold neighborproxy.Add, neighborproxy.Delete, bind;
    rewrite LinkByName_run;
    (destruct (Netlink.LinkByName _ _) as [host|e];
     [|eexists _, w; repeat split]).
  - unfold NeighAdd, request, Netlink.NeighAdd.
    destruct (_ && _); eexists _, _; repeat split.
  - unfold NeighDel, request, Netlink.NeighDel.
    destruct (Netlink.has_neigh _ _); eexists _, _; repeat split.
Qed.

(** X6.  A missing loopback device of the agent makes [RouteEgressAdd]
    and [RouteEgressDel] fail: the error returned holds the wrapped
    lookup error, and the route tables are left as they were. *)
Theorem missing_loopback_is_reported
  (prefixStr srcStr : string) (segmentsStr : list string)
  (prefix : Netlink.IPNet) (segments : list Z) (vpc att : string)
  (e : error) (w : World) :
  parsed prefixStr srcStr segmentsStr prefix segments vpc att ->
  Netlink.LinkByName (kernel w) routeegress.LoopbackDevice = Err e ->
  (exists err w',
      srv6.RouteEgressAdd prefixStr srcStr segmentsStr w
      = Done (Some err) w'
      /\ Contains (Wrapped "routeegress add failed" e) err
      /\ Netlink.routes (kernel w') = Netlink.routes (kernel w))
  /\ (exists err w',
         srv6.RouteEgressDel prefixStr srcStr segmentsStr w
         = Done (Some err) w'
         /\ Contains (Wrapped "routeegress delete failed" e) err
         /\ Netlink.routes (kernel w') = Netlink.routes (kernel w)).
Proof.
  intros Hparsed Hmiss. split.
  - rewrite (RouteEgressAdd_parsed _ _ _ _ _ _ _ _ Hparsed).
    unfold bind, ret. destruct (util.IsHost prefix).
    + destruct (neighborproxy_frame true prefix vpc att w)
        as (e1 & w1 & E1 & Hl & Hr).
      cbv beta iota in E1. rewrite E1. cbv beta iota.
      unfold routeegress.Add, bind.
      rewrite LinkByName_run, (LinkByName_links _ _ _ Hl), Hmiss.
      destruct e1; cbn; eexists _, w1;
        (split; [reflexivity|]; split; [|exact Hr];
         eapply Contains_joined; [|apply Contains_here]; cbn; auto).
    + unfold routeegress.Add, bind. rewrite LinkByName_run, Hmiss. cbn.
      eexists _, w. split; [reflexivity|]. split; [|reflexivity].
      eapply Contains_joined; [|apply Contains_here]. cbn; auto.
  - rewrite (RouteEgressDel_parsed _ _ _ _ _ _ _ _ Hparsed).
    unfold bind, ret. destruct (util.IsHost prefix).
    + destruct (neighborproxy_frame false prefix vpc att w)
        as (e1 & w1 & E1 & Hl & Hr).
      cbv beta iota in E1. rewrite E1. cbv beta iota.
      unfold routeegress.Delete, bind.
      rewrite LinkByName_run, (LinkByName_links _ _ _ Hl), Hmiss.
      destruct e1; cbn; eexists _, w1;
        (split; [reflexivity|]; split; [|exact Hr];
         eapply Contains_joined; [|apply Contains_here]; cbn; auto).
    + unfold routeegress.Delete, bind. rewrite LinkByName_run, Hmiss. cbn.
      eexists _, w. split; [reflexivity|]. split; [|reflexivity].
      eapply Contains_joined; [|apply Contains_here]. cbn; auto.
Qed.


End WithImports.




Lemma missing_host_device_is_reported_witness :
  let w := Lab.running Lab.bare in
  let e := LinkNotFoundError "G000000001001H" in
  @srv6.RouteIngressAdd Lab.imports "fc00::1:1" w
  = Done (Some (Wrapped "routeingress add failed" e)) w
  /\ @srv6.RouteIngressDel Lab.imports "fc00::1:1" w
     = Done (Some (Wrapped "routeingress delete failed" e)) w.
Proof.
  intros w e.
  apply (@missing_host_device_is_reported Lab.imports "fc00::1:1"
           endpoint_1_1 "000000001" "001" e w).
  - exact lab_resolves.
  - reflexivity.
Defined.

Lemma missing_loopback_is_reported_witness :
  let w := Lab.running
             (Netlink.mkKernel
                [Netlink.mkLink "G000000001001H" 7 None;
                 Netlink.mkLink "G000000001001V" 8 (Some 100)] [] []) in
  let e := LinkNotFoundError "lo-galactic" in
  (exists err w',
      @srv6.RouteEgressAdd Lab.imports "192.168.2.5/32" "fc00::1:1"
        ["fc00:0:3::"] w = Done (Some err) w'
      /\ Contains (Wrapped "routeegress add failed" e) err
      /\ Netlink.routes (kernel w') = Netlink.routes (kernel w))
  /\ (exists err w',
         @srv6.RouteEgressDel Lab.imports "192.168.2.5/32" "fc00::1:1"
           ["fc00:0:3::"] w = Done (Some err) w'
         /\ Contains (Wrapped "routeegress delete failed" e) err
         /\ Netlink.routes (kernel w') = Netlink.routes (kernel w)).
Proof.
  intros w e.
  apply (@missing_loopback_is_reported Lab.imports "192.168.2.5/32"
           "fc00::1:1" ["fc00:0:3::"] host_prefix
           [64512 * 2 ^ 112 + 3 * 2 ^ 80] "000000001" "001" e w).
  - exact lab_parsed.
  - reflexivity.
Defined.


End EgressExtras.

(** * More on the handlers: what they never do *)

Module HandlerExtras.
Import Specs MoreSpecs KernelFacts EgressFacts AgentFacts KernelExtras
  EgressExtras.
Local Open Scope list_scope.

Lemma keeps_links_ret {A : Type} (a : A) : keeps_links (ret a).
Proof. intros w. reflexivity. Qed.

Lemma keeps_links_bind {A B : Type} (m : M A) (f : A -> M B) :
  keeps_links m -> (forall a, keeps_links (f a)) -> keeps_links (bind m f).
Proof.
  intros Hm Hf w. unfold bind. specialize (Hm w).
  destruct (m w) as [a w1 | msg w1]; cbn in Hm; [|exact Hm].
  now rewrite (Hf a w1).
Qed.

Lemma keeps_links_request {A : Type} (e : Event)
  (op : Netlink.Kernel -> A * Netlink.Kernel) :
  (forall k, Netlink.links (snd (op k)) = Netlink.links k) ->
  keeps_links (request e op).
Proof.
  intros H w. unfold request. specialize (H (kernel w)).
  destruct (op (kernel w)) as [a k]. exact H.
Qed.

Lemma keeps_links_LinkByName name : keeps_links (LinkByName name).
Proof. intros w. reflexivity. Qed.

Lemma keeps_links_Printf format args : keeps_links (Printf format args).
Proof. intros w. reflexivity. Qed.

Lemma keeps_links_try {A : Type} (r : result A) (msg : string)
  (k : A -> M (option error)) :
  (forall a, keeps_links (k a)) -> keeps_links (try_wrap r msg k).
Proof. intros Hk. destruct r; cbn; [apply Hk | apply keeps_links_ret]. Qed.

Lemma keeps_links_Send r payload : keeps_links (remote.Send r payload).
Proof. intros w. unfold remote.Send. now destruct (r_client w). Qed.

Lemma keeps_links_RouteReplace r : keeps_links (RouteReplace r).
Proof. apply keeps_links_request. reflexivity. Qed.

Lemma keeps_links_RouteDel r : keeps_links (RouteDel r).
Proof.
  apply keeps_links_request. intros k. unfold Netlink.RouteDel.
  now destruct (Netlink.has_route k r).
Qed.

Lemma keeps_links_NeighAdd n : keeps_links (NeighAdd n).
Proof.
  apply keeps_links_request. intros k. unfold Netlink.NeighAdd.
  now destruct (_ && _).
Qed.

Lemma keeps_links_NeighDel n : keeps_links (NeighDel n).
Proof.
  apply keeps_links_request. intros k. unfold Netlink.NeighDel.
  now destruct (Netlink.has_neigh k n).
Qed.

Create HintDb links.
#[local] Hint Resolve keeps_links_ret keeps_links_LinkByName
  keeps_links_Printf keeps_links_Send keeps_links_RouteReplace
  keeps_links_RouteDel keeps_links_NeighAdd keeps_links_NeighDel : links.

Ltac links_tac :=
  repeat first
    [ solve [auto with links]
    | apply keeps_links_bind; [|intros ?]
    | apply keeps_links_try; intros ?
    | match goal with
      | |- keeps_links (match ?x with _ => _ end) => destruct x
      | |- keeps_links (if ?x then _ else _) => destruct x
      end ].

Section WithImports.
Context {imports : Imports}.

Lemma keeps_links_GetVRFIdForVPC vpc att :
  keeps_links (vrf.GetVRFIdForVPC vpc att).
Proof. unfold vrf.GetVRFIdForVPC. links_tac. Qed.

#[local] Hint Resolve keeps_links_GetVRFIdForVPC : links.

Lemma keeps_links_RouteIngressAdd ep : keeps_links (srv6.RouteIngressAdd ep).
Proof. unfold srv6.RouteIngressAdd, routeingress.Add. links_tac. Qed.

Lemma keeps_links_RouteIngressDel ep : keeps_links (srv6.RouteIngressDel ep).
Proof. unfold srv6.RouteIngressDel, routeingress.Delete. links_tac. Qed.

Lemma keeps_links_RouteEgressAdd p s g :
  keeps_links (srv6.RouteEgressAdd p s g).
Proof.
  unfold srv6.RouteEgressAdd, routeegress.Add, neighborproxy.Add.
  links_tac.
Qed.

Lemma keeps_links_RouteEgressDel p s g :
  keeps_links (srv6.RouteEgressDel p s g).
Proof.
  unfold srv6.RouteEgressDel, routeegress.Delete, neighborproxy.Delete.
  links_tac.
Qed.

#[local] Hint Resolve keeps_links_RouteIngressAdd keeps_links_RouteIngressDel
  keeps_links_RouteEgressAdd keeps_links_RouteEgressDel : links.

Lemma keeps_links_register_each cfg ep ns :
  keeps_links (agent.register_each cfg ep ns).
Proof.
  induction ns as [|n ns IH]; cbn [agent.register_each]; links_tac.
Qed.

Lemma keeps_links_deregister_each cfg ep ns :
  keeps_links (agent.deregister_each cfg ep ns).
Proof.
  induction ns as [|n ns IH]; cbn [agent.deregister_each]; links_tac.
Qed.

#[local] Hint Resolve keeps_links_register_each
  keeps_links_deregister_each : links.

(** X8.  The agent never creates, removes or alters a device: the four
    operations of [srv6] and the three handlers of [main.go] leave the
    links of the kernel as they are, whatever their arguments and
    whether they return or panic. *)
Theorem links_are_never_changed (cfg : agent.Config) :
  (forall ep, keeps_links (srv6.RouteIngressAdd ep))
  /\ (forall ep, keeps_links (srv6.RouteIngressDel ep))
  /\ (forall p s g, keeps_links (srv6.RouteEgressAdd p s g))
  /\ (forall p s g, keeps_links (srv6.RouteEgressDel p s g))
  /\ (forall payload, keeps_links (agent.ReceiveHandler payload))
  /\ (forall v a ns, keeps_links (agent.RegisterHandler cfg v a ns))
  /\ (forall v a ns, keeps_links (agent.DeregisterHandler cfg v a ns)).
Proof.
  repeat split; intros.
  - apply keeps_links_RouteIngressAdd.
  - apply keeps_links_RouteIngressDel.
  - apply keeps_links_RouteEgressAdd.
  - apply keeps_links_RouteEgressDel.
  - unfold agent.ReceiveHandler. links_tac.
  - unfold agent.RegisterHandler. links_tac.
  - unfold agent.DeregisterHandler. links_tac.
Qed.

(** How [kernel_call] composes. *)
Lemma kc_ret {A : Type} (n : nat) (a : A) : kernel_call n (ret a).
Proof.
  intros w. exists a, w, []. rewrite app_nil_r.
  repeat split. cbn. apply Nat.le_0_l.
Qed.

Lemma kc_bind {A B : Type} (n k : nat) (m : M A) (f : A -> M B) :
  kernel_call n m -> (forall a, kernel_call k (f a)) ->
  kernel_call (n + k) (bind m f).
Proof.
  intros Hm Hf w. unfold bind.
  destruct (Hm w) as (a & w1 & evs1 & E1 & Hc1 & Ht1 & Hn1 & Hl1).
  rewrite E1.
  destruct (Hf a w1) as (b & w2 & evs2 & E2 & Hc2 & Ht2 & Hn2 & Hl2).
  exists b, w2, (evs1 ++ evs2). split; [exact E2|].
  split; [congruence|]. split; [now rewrite Ht2, Ht1, app_assoc|].
  split.
  - rewrite forallb_app, Hn1, Hn2. reflexivity.
  - rewrite length_app. now apply Nat.add_le_mono.
Qed.

Lemma kc_request {A : Type} (e : Event)
  (op : Netlink.Kernel -> A * Netlink.Kernel) :
  is_netlink e = true -> kernel_call 1 (request e op).
Proof.
  intros He w. unfold request. destruct (op (kernel w)) as [a k].
  exists a. eexists. exists [e]. split; [reflexivity|].
  cbn. rewrite He. repeat split. apply Nat.le_refl.
Qed.

Lemma kc_LinkByName (name : string) : kernel_call 0 (LinkByName name).
Proof.
  intros w. eexists _, w, []. rewrite app_nil_r.
  repeat split. apply Nat.le_refl.
Qed.

Lemma kc_Printf (format : string) (args : list LogArg) :
  kernel_call 0 (Printf format args).
Proof.
  intros w. eexists tt, _, []. split; [reflexivity|].
  cbn. rewrite app_nil_r. repeat split. apply Nat.le_refl.
Qed.

Lemma kc_try {A : Type} (n : nat) (r : result A) (msg : string)
  (k : A -> M (option error)) :
  (forall a, kernel_call n (k a)) -> kernel_call n (try_wrap r msg k).
Proof. intros Hk. destruct r; cbn; [apply Hk | apply kc_ret]. Qed.

Lemma kc_GetVRFIdForVPC vpc att :
  kernel_call 0 (vrf.GetVRFIdForVPC vpc att).
Proof.
  unfold vrf.GetVRFIdForVPC. apply (kc_bind 0 0); [apply kc_LinkByName|].
  intros [link|e]; [destruct (Netlink.VrfTable link)|]; apply kc_ret.
Qed.

Lemma kc_neighborproxy_Add ipnet vpc att :
  kernel_call 1 (neighborproxy.Add ipnet vpc att).
Proof.
  unfold neighborproxy.Add. apply (kc_bind 0 1); [apply kc_LinkByName|].
  intros [link|e]; [apply kc_request; reflexivity | apply kc_ret].
Qed.

Lemma kc_neighborproxy_Delete ipnet vpc att :
  kernel_call 1 (neighborproxy.Delete ipnet vpc att).
Proof.
  unfold neighborproxy.Delete. apply (kc_bind 0 1); [apply kc_LinkByName|].
  intros [link|e]; [apply kc_request; reflexivity | apply kc_ret].
Qed.

Lemma kc_routeegress_Add vpc att prefix segments :
  kernel_call 1 (routeegress.Add vpc att prefix segments).
Proof.
  unfold routeegress.Add. apply (kc_bind 0 1); [apply kc_LinkByName|].
  intros [link|e]; [|apply kc_ret].
  apply (kc_bind 0 1); [apply kc_GetVRFIdForVPC|].
  intros [t|e]; [apply kc_request; reflexivity | apply kc_ret].
Qed.

Lemma kc_routeegress_Delete vpc att prefix segments :
  kernel_call 1 (routeegress.Delete vpc att prefix segments).
Proof.
  unfold routeegress.Delete. apply (kc_bind 0 1); [apply kc_LinkByName|].
  intros [link|e]; [|apply kc_ret].
  apply (kc_bind 0 1); [apply kc_GetVRFIdForVPC|].
  intros [t|e]; [apply kc_request; reflexivity | apply kc_ret].
Qed.

Lemma kc_RouteEgressAdd p s g : kernel_call 2 (srv6.RouteEgressAdd p s g).
Proof.
  unfold srv6.RouteEgressAdd. repeat (apply kc_try; intros ?).
  apply (kc_bind 1 1).
  - destruct (util.IsHost _); [|apply kc_ret].
    apply (kc_bind 1 0); [apply kc_neighborproxy_Add | intros; apply kc_ret].
  - intros errs.
    apply (kc_bind 1 0); [apply kc_routeegress_Add|].
    intros err. cbv zeta. destruct (_ <? _)%nat; apply kc_ret.
Qed.

Lemma kc_RouteEgressDel p s g : kernel_call 2 (srv6.RouteEgressDel p s g).
Proof.
  unfold srv6.RouteEgressDel. repeat (apply kc_try; intros ?).
  apply (kc_bind 1 1).
  - destruct (util.IsHost _); [|apply kc_ret].
    apply (kc_bind 1 0);
      [apply kc_neighborproxy_Delete | intros; apply kc_ret].
  - intros errs.
    apply (kc_bind 1 0); [apply kc_routeegress_Delete|].
    intros err. cbv zeta. destruct (_ <? _)%nat; apply kc_ret.
Qed.

Lemma kc_ReceiveHandler payload :
  kernel_call 2 (agent.ReceiveHandler payload).
Proof.
  unfold agent.ReceiveHandler.
  destruct (Unmarshal payload) as [[ | |n ep segs st| ]|e]; try apply kc_ret.
  apply (kc_bind 0 2); [apply kc_Printf|]. intros _.
  destruct (st =? Route_ADD);
    [|destruct (st =? Route_DELETE); [|apply kc_ret]].
  - apply (kc_bind 2 0); [apply kc_RouteEgressAdd|].
    intros [e|]; apply kc_ret.
  - apply (kc_bind 2 0); [apply kc_RouteEgressDel|].
    intros [e|]; apply kc_ret.
Qed.

(** X11.  Whatever bytes the broker delivers, the message callback of
    the agent returns: it does not panic, it leaves the client as it is,
    it publishes nothing, and all it does besides logging is at most two
    requests to the kernel. *)
Theorem message_callback_is_safe (cfg : agent.Config) (payload : string) :
  kernel_call 2 (remote.onMessage (agent.r cfg) payload).
Proof.
  unfold remote.onMessage, agent.r; cbn [remote.ReceiveHandler].
  apply (kc_bind 2 0); [apply kc_ReceiveHandler|].
  intros [e|]; [apply kc_Printf | apply kc_ret].
Qed.

(** [RouteIngressDel] fails before it reaches the kernel and leaves the
    world as it was; or the kernel refuses the request because it holds
    no route for the endpoint; or the route is removed. *)
Lemma RouteIngressDel_cases (ep : string) (w : World) :
  (exists e, srv6.RouteIngressDel ep w = Done (Some e) w)
  \/ (exists e route w',
         srv6.RouteIngressDel ep w = Done (Some e) w'
         /\ names_endpoint ep route
         /\ Netlink.has_route (kernel w) route = false
         /\ w' = after w (EvRouteDel route) (kernel w))
  \/ (exists route w',
         srv6.RouteIngressDel ep w = Done None w'
         /\ names_endpoint ep route
         /\ Netlink.has_route (kernel w) route = true
         /\ Netlink.has_route (kernel w') route = false
         /\ r_client w' = r_client w
         /\ trace w' = trace w ++ [EvRouteDel route]).
Proof.
  unfold srv6.RouteIngressDel, try_wrap, util.DecodeSRv6Endpoint.
  destruct (ParseIP ep) as [ip|e] eqn:Hip; [|left; eexists; reflexivity].
  destruct (HexToBase62 (fst (Codec.Decode ip))) as [vpc|e];
    [|left; eexists; reflexivity].
  destruct (HexToBase62 (snd (Codec.Decode ip))) as [att|e];
    [|left; eexists; reflexivity].
  unfold routeingress.Delete, bind. rewrite LinkByName_run.
  destruct (Netlink.LinkByName _ _) as [host|e];
    [|left; eexists; reflexivity].
  fold (ingress_probe host (Netlink.NewIPNet ip)).
  unfold RouteDel, request, Netlink.RouteDel.
  assert (Hn : names_endpoint ep (ingress_probe host (Netlink.NewIPNet ip)))
    by (exists ip; split; [exact Hip | reflexivity]).
  destruct (Netlink.has_route (kernel w) _) eqn:Hhas; right.
  - right. eexists _, _. split; [reflexivity|].
    split; [exact Hn|]. split; [exact Hhas|].
    split; [apply existsb_filtered|]. split; reflexivity.
  - left. eexists _, _, _. split; [reflexivity|].
    split; [exact Hn|]. split; [exact Hhas | reflexivity].
Qed.

Lemma withdrawn_of_handed cfg req w w1 w' ep route sent :
  util.EncodeSRv6Endpoint (agent.srv6_net cfg) (local.DVpc req)
                          (local.DVpcattachment req) = OK ep ->
  names_endpoint ep route ->
  Netlink.has_route (kernel w) route = true ->
  Netlink.has_route (kernel w1) route = false ->
  trace w1 = trace w ++ [EvRouteDel route] ->
  handed cfg Envelope_Deregister ep w1 w' sent ->
  withdrawn cfg req w w' sent.
Proof.
  intros He Hr Hhas Hgone Ht (Hk & _ & pubs & Ht' & Hall).
  exists ep, route, pubs. repeat split; try assumption.
  - now rewrite Hk.
  - rewrite Ht', Ht, <- app_assoc. reflexivity.
Qed.

(** X9.  A confirmed [Deregister] reply comes only after the ingress
    route of the endpoint, which the kernel held, is removed and one
    [Deregister] envelope per network has been handed over, in list
    order.  A request that fails before or at the kernel (the endpoint
    does not encode, a device is missing, the kernel holds no such route)
    changes nothing in the kernel and hands over no envelope; any other
    run that ends without a confirmed reply has done a prefix of the
    sequence. *)
Theorem deregister_order (cfg : agent.Config)
  (req : local.DeregisterRequest) (w : World) :
  match local.Deregister (agent.l cfg) req w with
  | Done (Some rep, err) w' =>
      local.DConfirmed rep = true /\ err = None
      /\ withdrawn cfg req w w' (local.DNetworks req)
  | Done (None, err) w' =>
      err <> None
      /\ ((kernel w' = kernel w
           /\ (trace w' = trace w
               \/ exists route, trace w' = trace w ++ [EvRouteDel route]))
          \/ exists sent rest,
               local.DNetworks req = sent ++ rest /\ rest <> []
               /\ withdrawn cfg req w w' sent)
  | Panic _ w' =>
      exists sent rest,
        local.DNetworks req = sent ++ rest /\ rest <> []
        /\ withdrawn cfg req w w' sent
  end.
Proof.
  unfold local.Deregister, agent.l; cbn [local.DeregisterHandler].
  unfold bind, agent.DeregisterHandler.
  destruct (util.EncodeSRv6Endpoint _ _ _) as [ep|e] eqn:He.
  2: { cbn. split; [discriminate | left; split; [|left]; reflexivity]. }
  unfold bind.
  destruct (RouteIngressDel_cases ep w)
    as [[e E] | [(e & route & w1 & E & _ & _ & ->)
                | (route & w1 & E & Hr & Hhas & Hgone & Hc & Ht)]];
    rewrite E; cbn.
  { split; [discriminate | left; split; [|left]; reflexivity]. }
  { split; [discriminate|]. left. split; [reflexivity|].
    right. exists route. reflexivity. }
  pose proof (deregister_each_spec cfg ep (local.DNetworks req) w1) as Hloop.
  destruct (agent.deregister_each cfg ep (local.DNetworks req) w1)
    as [[e|] w' | msg w']; cbn in *.
  - destruct Hloop as (sent & n & rest & Hns & _ & Hh).
    split; [discriminate|]. right. exists sent, (n :: rest).
    split; [assumption|]. split; [discriminate|].
    eapply withdrawn_of_handed; eassumption.
  - split; [reflexivity|]. split; [reflexivity|].
    eapply withdrawn_of_handed; eassumption.
  - destruct Hloop as (_ & sent & n & rest & Hns & Hh).
    exists sent, (n :: rest).
    split; [assumption|]. split; [discriminate|].
    eapply withdrawn_of_handed; eassumption.
Qed.




End WithImports.


End HandlerExtras.

(** * More on the two tasks and the process *)

Module RunExtras.
Import Specs MoreSpecs MainFacts mqtt.
Local Open Scope list_scope.

(** The connections made while [Run] waits: each one sends one subscribe
    request for the receive topic, and the granted ones are the
    subscriptions of the client. *)
Lemma each_connect_trace r subs :
  forall w c,
    r_client w = Some c ->
    exists w',
      remote.each_connect r subs w = Done tt w'
      /\ kernel w' = kernel w
      /\ trace w'
         = trace w
           ++ map (fun _ => EvSubscribe (remote.TopicRX r) (remote.QoS r))
                  subs
      /\ r_client w'
         = Some (mkClient (connected c)
                   (subscribed c
                    ++ map (fun _ => remote.TopicRX r)
                           (filter granted_sub subs))
                   (options c)).
Proof.
  induction subs as [|tok subs IH]; intros w c Hc.
  - exists w. cbn. rewrite !app_nil_r. repeat split.
    rewrite Hc. now destruct c.
  - cbn [remote.each_connect]. unfold bind at 1.
    unfold remote.OnConnect, remote.Subscribe, Printf, bind. cbn.
    rewrite Hc. unfold granted_sub at 1.
    destruct (negb (WaitTimeout tok) || negb (is_nil (TokError tok)));
      (destruct (WaitTimeout tok && is_nil (TokError tok));
       match goal with
       | |- context [remote.each_connect r subs ?w1] =>
           edestruct (IH w1) as (w' & E & Hk & Ht & Hc'); [reflexivity|];
           exists w'; rewrite E; cbn in Hk, Ht, Hc';
           split; [reflexivity|]; split; [exact Hk|];
           split; [rewrite Ht, <- app_assoc; reflexivity|];
           rewrite Hc'; cbn; rewrite <- ?app_assoc; reflexivity
       end).
Qed.

(** X12.  [Remote.Run] stores a client with the options of the remote
    and sends one connect request.  When the connect fails it returns
    that error and nothing else was sent.  Otherwise it waits, and until
    the context is done every connection sends exactly one subscribe
    request, for the receive topic with the QoS of the remote; the client
    is subscribed once for each request the broker granted.  The kernel
    is not touched. *)
Theorem run_subscribes_once_per_connection (r : remote.Remote)
  (conn : Token) (subs : list Token) (w : World) :
  match TokError conn with
  | Some e =>
      exists w',
        remote.Run r conn subs w = Done (Returned (Some e)) w'
        /\ kernel w' = kernel w
        /\ trace w' = trace w ++ [EvConnect]
        /\ r_client w' = Some (mkClient false [] (remote.Run_options r))
  | None =>
      exists k w',
        remote.Run r conn subs w = Done (AwaitDone k) w'
        /\ kernel w' = kernel w
        /\ trace w'
           = trace w
             ++ EvConnect
                :: map (fun _ => EvSubscribe (remote.TopicRX r)
                                             (remote.QoS r)) subs
        /\ r_client w'
           = Some (mkClient true
                     (map (fun _ => remote.TopicRX r)
                          (filter granted_sub subs))
                     (remote.Run_options r))
  end.
Proof.
  destruct (TokError conn) as [e|] eqn:He.
  - eexists. unfold remote.Run, remote.store_client, remote.Connect,
      Printf, bind. cbn. rewrite He. cbn. repeat split.
  - unfold remote.Run, remote.store_client, remote.Connect, Printf.
    unfold bind at 1 2 3. cbn. rewrite He. cbn. unfold bind at 1.
    match goal with
    | |- context [remote.each_connect r subs ?w1] =>
        edestruct (each_connect_trace r subs w1) as (w' & E & Hk & Ht & Hc);
        [reflexivity|]
    end.
    rewrite E. eexists _, w'. split; [reflexivity|].
    cbn in Hk, Ht, Hc. split; [exact Hk|].
    split; [rewrite Ht, <- app_assoc; reflexivity | exact Hc].
Qed.

Section WithImports.
Context {imports : Imports}.

(** Once started, the [Run] closure of the command returns or waits; it
    neither panics nor ends the process by [log.Fatalf]. *)
Lemma Run_ends cfg env conn subs signal w ep :
  util.EncodeSRv6Endpoint (agent.srv6_net cfg) "ffffffffffff" "ffff"
  = OK ep ->
  exists w',
    agent.Run cfg env conn subs signal w = Done agent.Returns w'
    \/ agent.Run cfg env conn subs signal w = Done agent.Waits w'.
Proof.
  intros He. unfold agent.Run. rewrite He. unfold bind. cbv beta iota.
  destruct (serve_fails env) eqn:Hs; destruct (connect_fails conn) eqn:Hr.
  - destruct (Serve_failed (agent.l cfg) env w Hs) as [e1 E1].
    destruct (Run_failed (agent.r cfg) conn subs w Hr) as (e2 & w2 & E2 & _).
    rewrite E1. cbv beta iota. rewrite E2. cbn. rewrite ?orb_true_r. cbn.
    eexists. left. reflexivity.
  - destruct (Serve_failed (agent.l cfg) env w Hs) as [e1 E1].
    destruct (Run_connected (agent.r cfg) conn subs w Hr)
      as (w2 & c & E2 & Hc & Hconn).
    rewrite E1. cbv beta iota. rewrite E2. cbn -[remote_shutdown].
    rewrite ?orb_true_r. cbn -[remote_shutdown].
    rewrite (bind_Done _ _ _ _ _ (remote_shutdown_run w2 c Hc Hconn)). cbn.
    eexists. left. reflexivity.
  - rewrite (Serve_listening (agent.l cfg) env w Hs). cbv beta iota.
    match goal with
    | |- context [remote.Run _ _ _ ?w1] =>
        destruct (Run_failed (agent.r cfg) conn subs w1 Hr)
          as (e2 & w2 & E2 & _)
    end.
    rewrite E2. cbn. rewrite ?orb_true_r. cbn.
    destruct (local.GrpcServeErr env); cbn; eexists; left; reflexivity.
  - rewrite (Serve_listening (agent.l cfg) env w Hs). cbv beta iota.
    match goal with
    | |- context [remote.Run _ _ _ ?w1] =>
        destruct (Run_connected (agent.r cfg) conn subs w1 Hr)
          as (w2 & c & E2 & Hc & Hconn)
    end.
    rewrite E2. destruct signal; cbn -[remote_shutdown].
    + match goal with
      | |- context [bind remote_shutdown _ ?w3] =>
          rewrite (bind_Done _ _ _ _ _ (remote_shutdown_run w3 c Hc Hconn))
      end.
      destruct (local.GrpcServeErr env); cbn; eexists; left; reflexivity.
    + eexists. right. reflexivity.
Qed.

(** X13.  The process never panics in [main], and it exits with status 1
    in exactly two cases: the command line is wrong, or [srv6_net] does
    not take the largest identifiers.  In both, no connection was made,
    no client stored, and the kernel was not touched. *)
Theorem status_one_iff_startup_failure (cfg : agent.Config)
  (execute_err : option error) (env : local.ServeEnv) (conn : Token)
  (subs : list Token) (signal : bool) (w : World) :
  exists st w',
    agent.main cfg execute_err env conn subs signal w = Done st w'
    /\ (st = Some 1
        <-> execute_err <> None
            \/ exists e,
                 util.EncodeSRv6Endpoint (agent.srv6_net cfg)
                   "ffffffffffff" "ffff" = Err e)
    /\ (st = Some 1 ->
        kernel w' = kernel w /\ r_client w' = r_client w
        /\ trace w' = trace w).
Proof.
  unfold agent.main. destruct execute_err as [e|].
  { eexists _, _. split; [reflexivity|]. split.
    - split; [left; discriminate | reflexivity].
    - intros _. repeat split. }
  destruct (util.EncodeSRv6Endpoint (agent.srv6_net cfg) _ _)
    as [ep|e] eqn:He.
  - destruct (Run_ends cfg env conn subs signal w ep He) as (w' & [E|E]);
      unfold bind; rewrite E; eexists _, _; (split; [reflexivity|]);
      (split; [split; [discriminate | intros [H|[e H]]; congruence]
              | discriminate]).
  - unfold bind, agent.Run. rewrite He. cbn.
    eexists _, _. split; [reflexivity|]. split.
    + split; [right; exists e; reflexivity | reflexivity].
    + intros _. repeat split.
Qed.

(** X14.  With both tasks up, a signal shuts the agent down: the
    service stops, the client disconnects with a quiesce time of 250 ms
    as its last action, [Shutdown] is the last log line, and the status
    is 0.  An error the gRPC server had returned is logged only
    now; without a signal it does not end the process. *)
Theorem signal_shuts_down_cleanly (cfg : agent.Config)
  (env : local.ServeEnv) (conn : Token) (subs : list Token) (w : World)
  (ep : string) :
  util.EncodeSRv6Endpoint (agent.srv6_net cfg) "ffffffffffff" "ffff"
  = OK ep ->
  serve_fails env = false -> connect_fails conn = false ->
  let quit := agent.main cfg None env conn subs true w in
  let stay := agent.main cfg None env conn subs false w in
  returned quit = Some (Some 0)
  /\ returned stay = Some None
  /\ (exists c, r_client (world_of quit) = Some c /\ connected c = false)
  /\ (exists tr, trace (world_of quit) = tr ++ [EvDisconnect 250])
  /\ (exists lg, logs (world_of quit) = lg ++ [("Shutdown", [])])
  /\ In ("gRPC stopped", []) (logs (world_of quit))
  /\ In ("MQTT disconnected", []) (logs (world_of quit))
  /\ (forall e, local.GrpcServeErr env = Some e ->
                In ("Error: %v", [LErr (Some e)]) (logs (world_of quit)))
  /\ trace (world_of quit) = trace (world_of stay) ++ [EvDisconnect 250].
Proof.
  intros He Hs Hr quit stay. subst quit stay.
  unfold agent.main, agent.Run. rewrite He. unfold bind. cbv beta iota.
  rewrite (Serve_listening (agent.l cfg) env w Hs). cbv beta iota.
  match goal with
  | |- context [remote.Run _ _ _ ?w1] =>
      destruct (Run_connected (agent.r cfg) conn subs w1 Hr)
        as (w2 & c & E2 & Hc & Hconn)
  end.
  rewrite E2. cbn -[remote_shutdown].
  match goal with
  | |- context [bind remote_shutdown _ ?w3] =>
      rewrite (bind_Done _ _ _ _ _ (remote_shutdown_run w3 c Hc Hconn))
  end.
  destruct (local.GrpcServeErr env) as [e1|]; cbn;
    (split; [reflexivity|]; split; [reflexivity|];
     split; [eexists; split; reflexivity|];
     split; [eexists; reflexivity|];
     split; [eexists; reflexivity|];
     split; [rewrite !in_app_iff; cbn; auto 7|];
     split; [rewrite !in_app_iff; cbn; auto 7|];
     split; [|reflexivity]).
  - intros e [= <-]. rewrite !in_app_iff. cbn. auto 7.
  - discriminate.
Qed.

End WithImports.

(** The lab agent with a free socket and a reachable broker. *)
Lemma signal_shuts_down_cleanly_witness :
  let env := local.mkServeEnv None true None None in
  let w := Lab.booting Lab.host in
  let quit := @agent.main Lab.imports agent.defaults None env granted
                [granted] true w in
  let stay := @agent.main Lab.imports agent.defaults None env granted
                [granted] false w in
  returned quit = Some (Some 0)
  /\ returned stay = Some None
  /\ (exists c, r_client (world_of quit) = Some c /\ connected c = false)
  /\ (exists tr, trace (world_of quit) = tr ++ [EvDisconnect 250])
  /\ (exists lg, logs (world_of quit) = lg ++ [("Shutdown", [])])
  /\ In ("gRPC stopped", []) (logs (world_of quit))
  /\ In ("MQTT disconnected", []) (logs (world_of quit))
  /\ (forall e, local.GrpcServeErr env = Some e ->
                In ("Error: %v", [LErr (Some e)]) (logs (world_of quit)))
  /\ trace (world_of quit) = trace (world_of stay) ++ [EvDisconnect 250].
Proof.
  intros env w.
  apply (@signal_shuts_down_cleanly Lab.imports agent.defaults env granted
           [granted] w "fc00::ffff:ffff:ffff:ffff");
    reflexivity.
Defined.

End RunExtras.

(** * Properties of the route injection script *)

Module TestRouteFacts.
Import MoreSpecs testroute.

Lemma append_nil_r (s : string) : s ++ "" = s.
Proof. induction s as [|c s IH]; cbn; [reflexivity | now rewrite IH]. Qed.

Lemma append_assoc (s t u : string) : (s ++ t) ++ u = s ++ (t ++ u).
Proof. induction s as [|c s IH]; cbn; [reflexivity | now rewrite IH]. Qed.

Lemma length_append (s t : string) :
  String.length (s ++ t) = (String.length s + String.length t)%nat.
Proof. induction s as [|c s IH]; cbn; [reflexivity | now rewrite IH]. Qed.

Lemma append_inj (s1 s2 t1 t2 : string) :
  String.length s1 = String.length s2 ->
  s1 ++ t1 = s2 ++ t2 -> s1 = s2 /\ t1 = t2.
Proof.
  revert s2. induction s1 as [|c s1 IH]; intros [|c2 s2] Hl H;
    try discriminate Hl.
  - split; [reflexivity | exact H].
  - cbn in H. injection H as -> H. injection Hl as Hl.
    destruct (IH _ Hl H) as [-> ->]. split; reflexivity.
Qed.


Lemma length_substring (s : string) :
  forall n m,
    (n + m <= String.length s)%nat -> String.length (substring n m s) = m.
Proof.
  induction s as [|c s IH]; intros [|n] [|m] H; cbn in *;
    try reflexivity; try lia.
  - now rewrite (IH 0%nat m) by lia.
  - apply IH. lia.
  - apply IH. lia.
Qed.


(** A piece of the first [k] bytes is a piece of the string. *)
Lemma substring_prefix (s : string) :
  forall n m k,
    (n + m <= k)%nat -> substring n m (substring 0 k s) = substring n m s.
Proof.
  induction s as [|c s IH]; intros n m k H.
  - destruct k; reflexivity.
  - destruct k as [|k].
    + replace n with 0%nat by lia. replace m with 0%nat by lia. reflexivity.
    + cbn [substring]. destruct n as [|n].
      * destruct m as [|m]; [reflexivity|]. cbn [substring].
        now rewrite (IH 0%nat m k) by lia.
      * cbn [substring]. apply IH. lia.
Qed.

Lemma groups_of_twelve (s : string) :
  String.length s = 12%nat ->
  substring 0 4 s ++ substring 4 4 s ++ substring 8 4 s = s.
Proof.
  intros H.
  do 12 (destruct s as [|? s]; [discriminate H|]).
  destruct s; [reflexivity | discriminate H].
Qed.

Lemma length_zeros (n : nat) : String.length (zeros n) = n.
Proof. induction n as [|n IH]; cbn; [reflexivity | now rewrite IH]. Qed.

Lemma zeros_snoc (n : nat) (s : string) :
  zeros n ++ String "0" s = zeros (S n) ++ s.
Proof. induction n as [|n IH]; cbn in *; [reflexivity | now rewrite IH]. Qed.

(** The padding loop puts the missing zeros in front. *)
Lemma pad_loop_zeros (rounds width : nat) :
  forall s,
    (width - String.length s <= rounds)%nat ->
    pad_loop rounds width s = zeros (width - String.length s) ++ s.
Proof.
  induction rounds as [|rounds IH]; intros s H; cbn [pad_loop].
  - replace (width - String.length s)%nat with 0%nat by lia. reflexivity.
  - destruct (String.length s <? width)%nat eqn:E.
    + apply Nat.ltb_lt in E. rewrite IH by (cbn; lia). cbn [append String.length].
      replace (width - String.length s)%nat
        with (S (width - S (String.length s))) by lia.
      now rewrite <- zeros_snoc.
    + apply Nat.ltb_ge in E.
      replace (width - String.length s)%nat with 0%nat by lia. reflexivity.
Qed.

Lemma pad_loop_full (width : nat) (s : string) :
  (width <= String.length s)%nat -> pad_loop width width s = s.
Proof.
  intros H. rewrite pad_loop_zeros by lia.
  replace (width - String.length s)%nat with 0%nat by lia. reflexivity.
Qed.



(** X16.  For a VPC id of at most 12 and an attachment id of at most 4
    characters, [generateSRv6Endpoint] gives a text of 25 characters:
    [fc00::], three groups of four characters that together are the VPC
    id padded with zeros on the left, and the attachment id padded
    likewise. *)
Theorem endpoint_text_format (vpcHex vpcAttachmentHex : string) :
  (String.length vpcHex <= 12)%nat ->
  (String.length vpcAttachmentHex <= 4)%nat ->
  exists g1 g2 g3 att,
    generateSRv6Endpoint vpcHex vpcAttachmentHex
    = "fc00::" ++ g1 ++ ":" ++ g2 ++ ":" ++ g3 ++ ":" ++ att
    /\ String.length g1 = 4%nat /\ String.length g2 = 4%nat
    /\ String.length g3 = 4%nat
    /\ g1 ++ g2 ++ g3 = zeros (12 - String.length vpcHex) ++ vpcHex
    /\ att = zeros (4 - String.length vpcAttachmentHex) ++ vpcAttachmentHex
    /\ String.length (generateSRv6Endpoint vpcHex vpcAttachmentHex)
       = 25%nat.
Proof.
  intros Hv Ha. unfold generateSRv6Endpoint. cbv zeta.
  rewrite !pad_loop_zeros by lia.
  set (pv := zeros (12 - String.length vpcHex) ++ vpcHex).
  set (pa := zeros (4 - String.length vpcAttachmentHex) ++ vpcAttachmentHex).
  assert (Hpv : String.length pv = 12%nat)
    by (unfold pv; rewrite length_append, length_zeros; lia).
  assert (Hpa : String.length pa = 4%nat)
    by (unfold pa; rewrite length_append, length_zeros; lia).
  exists (substring 0 4 pv), (substring 4 4 pv), (substring 8 4 pv), pa.
  split; [reflexivity|].
  assert (H1 : String.length (substring 0 4 pv) = 4%nat)
    by (apply length_substring; lia).
  assert (H2 : String.length (substring 4 4 pv) = 4%nat)
    by (apply length_substring; lia).
  assert (H3 : String.length (substring 8 4 pv) = 4%nat)
    by (apply length_substring; lia).
  repeat (split; [assumption|]).
  split; [now apply groups_of_twelve|]. split; [reflexivity|].
  rewrite !length_append, H1, H2, H3, Hpa. reflexivity.
Qed.

Lemma endpoint_text_format_witness :
  exists g1 g2 g3 att,
    generateSRv6Endpoint "1" "2"
    = "fc00::" ++ g1 ++ ":" ++ g2 ++ ":" ++ g3 ++ ":" ++ att
    /\ String.length g1 = 4%nat /\ String.length g2 = 4%nat
    /\ String.length g3 = 4%nat
    /\ g1 ++ g2 ++ g3 = zeros (12 - String.length "1") ++ "1"
    /\ att = zeros (4 - String.length "2") ++ "2"
    /\ String.length (generateSRv6Endpoint "1" "2") = 25%nat.
Proof. apply (endpoint_text_format "1" "2"); cbn; lia. Defined.

(** X17.  Of a VPC id longer than 12 characters [generateSRv6Endpoint]
    uses the first 12 only: the characters after them are dropped
    without a word. *)
Theorem long_vpc_id_is_cut (vpcHex vpcAttachmentHex : string) :
  (12 <= String.length vpcHex)%nat ->
  generateSRv6Endpoint vpcHex vpcAttachmentHex
  = generateSRv6Endpoint (substring 0 12 vpcHex) vpcAttachmentHex.
Proof.
  intros H. unfold generateSRv6Endpoint. cbv zeta.
  assert (H12 : String.length (substring 0 12 vpcHex) = 12%nat)
    by (apply length_substring; lia).
  rewrite (pad_loop_full 12 vpcHex) by lia.
  rewrite (pad_loop_full 12 (substring 0 12 vpcHex)) by lia.
  now rewrite !substring_prefix by lia.
Qed.

Lemma long_vpc_id_is_cut_witness :
  generateSRv6Endpoint "0000000000012345" "1"
  = generateSRv6Endpoint (substring 0 12 "0000000000012345") "1".
Proof. apply (long_vpc_id_is_cut "0000000000012345" "1"). cbn. lia. Defined.

Lemma byte_inj (a b : Z) :
  0 <= a < 256 -> 0 <= b < 256 -> byte a = byte b -> a = b.
Proof.
  unfold byte. intros Ha Hb H.
  apply (f_equal nat_of_ascii) in H.
  rewrite !Z.mod_small in H by assumption.
  rewrite !nat_ascii_embedding in H by lia. lia.
Qed.

Lemma encodeString_inj (fieldNum : Z) (v v' rest rest' : string) :
  (String.length v < 256)%nat -> (String.length v' < 256)%nat ->
  encodeString fieldNum v ++ rest = encodeString fieldNum v' ++ rest' ->
  v = v' /\ rest = rest'.
Proof.
  intros Hv Hv' H. unfold encodeString in H. cbv zeta in H.
  cbn [append] in H. injection H as Hlen H.
  apply byte_inj in Hlen; [|lia|lia].
  apply append_inj; [lia | exact H].
Qed.

(** The segments loop appends to what is there. *)
Lemma segments_loop (segs : list string) :
  forall route,
    fold_left (fun route seg => route ++ encodeString 3 seg) segs route
    = route
      ++ fold_left (fun route seg => route ++ encodeString 3 seg) segs "".
Proof.
  induction segs as [|seg segs IH]; intros route; cbn [fold_left].
  - now rewrite append_nil_r.
  - rewrite IH. rewrite (IH ("" ++ encodeString 3 seg)).
    now rewrite append_assoc.
Qed.

Lemma segments_inj (segs : list string) :
  forall segs' status status',
    Forall (fun seg => (String.length seg < 256)%nat) segs ->
    Forall (fun seg => (String.length seg < 256)%nat) segs' ->
    fold_left (fun route seg => route ++ encodeString 3 seg) segs ""
    ++ encodeVarint 4 status
    = fold_left (fun route seg => route ++ encodeString 3 seg) segs' ""
      ++ encodeVarint 4 status' ->
    segs = segs' /\ byte status = byte status'.
Proof.
  induction segs as [|seg segs IH]; intros [|seg' segs'] st st' Hf Hf' H;
    cbn [fold_left] in H; rewrite ?(segments_loop _ ("" ++ _)) in H;
    cbn [append] in H.
  - injection H as H. split; [reflexivity | exact H].
  - discriminate H.
  - discriminate H.
  - change (String ?t (String ?n (?v ++ ?r)))
      with (encodeString 3 v ++ r) in H.
    rewrite !append_assoc in H.
    apply Forall_cons_iff in Hf as [Hs Hf].
    apply Forall_cons_iff in Hf' as [Hs' Hf'].
    apply encodeString_inj in H as [-> H]; [|assumption|assumption].
    destruct (IH _ _ _ Hf Hf' H) as [-> Hb]. split; [reflexivity | exact Hb].
Qed.

(** X18.  The message the script publishes tells its route apart: two
    route records whose strings are shorter than 256 bytes and whose
    status fits a byte are encoded to the same envelope only when they
    have the same network, endpoint, segments and status. *)
Theorem envelope_tells_routes_apart
  (network srv6Endpoint : string) (srv6Segments : list string) (status : Z)
  (network' srv6Endpoint' : string) (srv6Segments' : list string)
  (status' : Z) :
  fits network srv6Endpoint srv6Segments status ->
  fits network' srv6Endpoint' srv6Segments' status' ->
  encodeEnvelope (encodeRoute network srv6Endpoint srv6Segments status)
  = encodeEnvelope (encodeRoute network' srv6Endpoint' srv6Segments' status')
  ->
  network = network' /\ srv6Endpoint = srv6Endpoint'
  /\ srv6Segments = srv6Segments' /\ status = status'.
Proof.
  intros (Hn & He & Hs & Hst) (Hn' & He' & Hs' & Hst') H.
  unfold encodeEnvelope in H. cbv zeta in H. injection H as _ H.
  unfold encodeRoute in H. cbv zeta in H.
  rewrite !(segments_loop _ (_ ++ _)) in H.
  cbn [append] in H. rewrite !append_assoc in H.
  change (String ?t (String ?n (?v ++ ?r)))
    with (encodeString 1 v ++ r) in H.
  apply encodeString_inj in H as [-> H]; [|assumption|assumption].
  apply encodeString_inj in H as [-> H]; [|assumption|assumption].
  apply segments_inj in H as [-> Hb]; [|assumption|assumption].
  apply byte_inj in Hb; [|assumption|assumption].
  repeat split. exact Hb.
Qed.

Lemma envelope_tells_routes_apart_witness :
  "192.168.2.0/24" = "192.168.2.0/24" /\ "fc00::1:1" = "fc00::1:1"
  /\ ["fc00::1:1"] = ["fc00::1:1"] /\ 0 = 0.
Proof.
  apply (envelope_tells_routes_apart
           "192.168.2.0/24" "fc00::1:1" ["fc00::1:1"] 0
           "192.168.2.0/24" "fc00::1:1" ["fc00::1:1"] 0);
    [ split; [cbn; lia|]; split; [cbn; lia|];
      split; [repeat constructor; cbn; lia | lia]
    | split; [cbn; lia|]; split; [cbn; lia|];
      split; [repeat constructor; cbn; lia | lia]
    | reflexivity ].
Defined.

End TestRouteFacts.
